(** * Voice Coach Backend ([app.py]): a shallow embedding and its properties

    The development follows the layers of [app.py]:

    - the Python run time the file relies on: exceptions, [str] methods
      ([strip], [replace]), [print], JSON values, truthiness, the [float]
      and [int] constructors and [json.loads];
    - the Pydantic models [DetailedTip], [FeedbackReport] and
      [GenerateRequest];
    - the three provider calls [generate_script_from_topic],
      [transcribe_audio_bytes] and [get_feedback_from_gemini];
    - the FastAPI handlers, with the CORS middleware and the form
      validation that stand in front of them.

    Conventions.  A Python [str] is a Rocq [string] holding the UTF-8 bytes
    of the text.  A Python [float] is an IEEE 754 binary64 number, written
    as a [spec_float] with precision 53 and maximal exponent 1024.  A Python
    [int] is a [Z].  Code that may raise returns a [result]. *)

From Stdlib Require Import ZArith List String Ascii Bool Lia.
From Stdlib Require Import Floats.SpecFloat.
Import ListNotations.

#[local] Set Warnings "-register-all".

Local Open Scope string_scope.
Local Open Scope Z_scope.

(** ** Exceptions and fallible computations *)

(** The exception classes that the modelled code can meet.  [APIError]
    stands for whatever the provider client raises (network, quota,
    authentication, a blocked response); [SerializationError] is Pydantic's
    [PydanticSerializationError]. *)
Inductive exn : Type :=
| JSONDecodeError
| ValidationError
| ValueError
| TypeError
| OverflowError
| KeyError
| AttributeError
| APIError
| UnicodeEncodeError
| SerializationError.

Inductive result (A : Type) : Type :=
| Ok (a : A)
| Raise (e : exn).

Arguments Ok {A} a.
Arguments Raise {A} e.

Definition bind {A B : Type} (m : result A) (k : A -> result B) : result B :=
  match m with
  | Ok a => k a
  | Raise e => Raise e
  end.

Notation "x <- m ;; k" := (bind m (fun x => k))
  (at level 61, m at next level, right associativity).

(** [try ... except Exception: handler]. *)
Definition try_except {A : Type} (body : result A) (handler : exn -> A) : A :=
  match body with
  | Ok a => a
  | Raise e => handler e
  end.

(** ** Strings *)

Module Str.

Fixpoint rev (s : string) : string :=
  match s with
  | EmptyString => EmptyString
  | String c s' => rev s' ++ String c EmptyString
  end.

(** [s.startswith(p)]. *)
Fixpoint startswith (p s : string) : bool :=
  match p with
  | EmptyString => true
  | String a p' =>
      match s with
      | EmptyString => false
      | String b s' => Ascii.eqb a b && startswith p' s'
      end
  end.

(** [s[len(p):]] when [s.startswith(p)]. *)
Fixpoint after (p s : string) : option string :=
  match p with
  | EmptyString => Some s
  | String a p' =>
      match s with
      | EmptyString => None
      | String b s' => if Ascii.eqb a b then after p' s' else None
      end
  end.

(** [s[n:]]. *)
Fixpoint drop (n : nat) (s : string) : string :=
  match n, s with
  | O, _ => s
  | S _, EmptyString => EmptyString
  | S n', String _ s' => drop n' s'
  end.

(** The string whose bytes have the given codes. *)
Definition of_codes (l : list N) : string :=
  string_of_list_ascii (map ascii_of_N l).

(** The characters for which [str.isspace] holds, as UTF-8 byte
    sequences: U+0009..U+000D and U+0020, U+001C..U+001F, and beyond
    ASCII U+0085, U+00A0, U+1680, U+2000..U+200A, U+2028, U+2029, U+202F,
    U+205F and U+3000. *)
Definition ascii_blanks : list string :=
  map of_codes [[9]; [10]; [11]; [12]; [13]; [32]]%N.

Definition ascii_separators : list string :=
  map of_codes [[28]; [29]; [30]; [31]]%N.

Definition wide_spaces : list string :=
  map of_codes
    [[194; 133]; [194; 160]; [225; 154; 128];
     [226; 128; 128]; [226; 128; 129]; [226; 128; 130]; [226; 128; 131];
     [226; 128; 132]; [226; 128; 133]; [226; 128; 134]; [226; 128; 135];
     [226; 128; 136]; [226; 128; 137]; [226; 128; 138]; [226; 128; 168];
     [226; 128; 169]; [226; 128; 175]; [226; 129; 159]; [227; 128; 128]]%N.

Definition unicode_spaces : list string :=
  ascii_blanks ++ ascii_separators ++ wide_spaces.

(** The rest of [s] after one leading member of [pats], if any. *)
Fixpoint drop_any (pats : list string) (s : string) : option string :=
  match pats with
  | [] => None
  | p :: pats' =>
      if startswith p s then Some (drop (String.length p) s)
      else drop_any pats' s
  end.

Fixpoint drop_all (fuel : nat) (pats : list string) (s : string) : string :=
  match fuel with
  | O => s
  | S fuel' =>
      match drop_any pats s with
      | Some s' => drop_all fuel' pats s'
      | None => s
      end
  end.

Definition lstrip_of (spaces : list string) (s : string) : string :=
  drop_all (String.length s) spaces s.

Definition rstrip_of (spaces : list string) (s : string) : string :=
  rev (drop_all (String.length s) (map rev spaces) (rev s)).

Definition strip_of (spaces : list string) (s : string) : string :=
  rstrip_of spaces (lstrip_of spaces s).

(** [s.strip()]. *)
Definition strip (s : string) : string := strip_of unicode_spaces s.

(** [s.replace(old, new)] for a non-empty [old]: the occurrences of [old]
    are found from the left and do not overlap.  [skip] counts the
    characters of a matched occurrence that remain to be passed over. *)
Fixpoint replace_from (skip : nat) (old new s : string) : string :=
  match s with
  | EmptyString => EmptyString
  | String c s' =>
      match skip with
      | S k => replace_from k old new s'
      | O =>
          if startswith old s
          then new ++ replace_from (Nat.pred (String.length old)) old new s'
          else String c (replace_from O old new s')
      end
  end.

Definition replace (old new s : string) : string := replace_from O old new s.

(** [old in s]. *)
Fixpoint contains (old s : string) : bool :=
  startswith old s ||
  match s with
  | EmptyString => false
  | String _ s' => contains old s'
  end.

Fixpoint lower (s : string) : string :=
  match s with
  | EmptyString => EmptyString
  | String c s' =>
      let n := N_of_ascii c in
      String (if (65 <=? n)%N && (n <=? 90)%N then ascii_of_N (n + 32) else c)
             (lower s')
  end.

(** A lone surrogate, in the three-byte form [Json.chr] gives it: the byte
    237 followed by a byte from 160 on.  Such a [str] has no UTF-8
    encoding. *)
Fixpoint has_surrogate (s : string) : bool :=
  match s with
  | String a ((String b _) as s') =>
      ((N_of_ascii a =? 237)%N && (160 <=? N_of_ascii b)%N) || has_surrogate s'
  | _ => false
  end.

End Str.

(** ** Standard output *)

(** [print(f"...")] of a message into which the [str] values [values] are
    formatted.  Standard output encodes as UTF-8 and is strict: the fixed
    text of the messages of [app.py] (which holds emoji) and the numbers
    formatted into them can be encoded, a lone surrogate cannot.  What is
    printed is not kept.  The messages printed in the [except] clauses hold
    the text of the exception only, which is taken to be encodable. *)
Definition print (values : list string) : result unit :=
  if existsb Str.has_surrogate values then Raise UnicodeEncodeError else Ok tt.

(** ** Python values *)

(** The values [json.loads] builds, which are also the values the handlers
    pass around.  A [dict] keeps its keys in insertion order, without
    duplicates. *)
Inductive pyval : Type :=
| PNone
| PBool (b : bool)
| PInt (n : Z)
| PFloat (f : spec_float)
| PStr (s : string)
| PList (l : list pyval)
| PDict (d : list (string * pyval)).

Module Float.

Definition prec : Z := 53.
Definition emax : Z := 1024.

(** The literal [0.0]. *)
Definition zero : spec_float := S754_zero false.

(** [f == 0.0]: both zeros compare equal to [0.0]. *)
Definition is_zero (f : spec_float) : bool :=
  match f with
  | S754_zero _ => true
  | _ => false
  end.

Definition is_infinite (f : spec_float) : bool :=
  match f with
  | S754_infinity _ => true
  | _ => false
  end.

(** The binary64 number nearest to [m * 2^e] (ties to even). *)
Definition round (m e : Z) : spec_float :=
  binary_normalize prec emax m e false.

(** [float(n)] for an [int]: correctly rounded; an [int] beyond the range
    of binary64 raises [OverflowError]. *)
Definition of_int (n : Z) : result spec_float :=
  let f := round n 0 in
  if is_infinite f then Raise OverflowError else Ok f.

(** [int(f)]: truncation toward zero. *)
Definition to_int (f : spec_float) : result Z :=
  match f with
  | S754_zero _ => Ok 0
  | S754_nan => Raise ValueError
  | S754_infinity _ => Raise OverflowError
  | S754_finite s m e =>
      let a := if 0 <=? e then Zpos m * 2 ^ e else Zpos m / 2 ^ (- e) in
      Ok (if s then - a else a)
  end.

(** The binary64 number nearest to [m * 10^e], for [m > 0]; [neg] is its
    sign.  For a negative [e] the quotient [m / 10^(-e)] is taken with 64
    significant bits at least and one more bit that records whether the
    division left a remainder, which is enough for [round] to round the
    exact quotient. *)
Definition of_decimal (neg : bool) (m e : Z) : spec_float :=
  if m =? 0 then S754_zero neg
  else if 0 <=? e then round ((if neg then - m else m) * 10 ^ e) 0
  else
    let d := 10 ^ (- e) in
    let sh := Z.max 0 (64 + Z.log2 d - Z.log2 m) in
    let n := m * 2 ^ sh in
    let q := 2 * (n / d) + (if n mod d =? 0 then 0 else 1) in
    match round (if neg then - q else q) (- (sh + 1)) with
    | S754_zero _ => S754_zero neg
    | f => f
    end.

End Float.

(** ** The [float] and [int] constructors on strings *)

(** The digits are the ASCII digits; Python also takes the decimal digits
    of other scripts, and refuses an [int] literal of more than 4300
    digits.  Neither is modelled. *)

Module Num.

Definition digit (c : ascii) : option Z :=
  let n := N_of_ascii c in
  if (48 <=? n)%N && (n <=? 57)%N then Some (Z.of_N n - 48) else None.

Definition starts_with_digit (s : string) : bool :=
  match s with
  | String c _ => match digit c with Some _ => true | None => false end
  | EmptyString => false
  end.

(** [digitpart ::= digit (["_"] digit)*], read greedily: [acc] is the value
    and [n] the number of the digits read so far; the result also holds
    the text that follows. *)
Fixpoint digitpart (acc : Z) (n : nat) (s : string) : Z * nat * string :=
  match s with
  | EmptyString => (acc, n, s)
  | String c s' =>
      match digit c with
      | Some d => digitpart (10 * acc + d) (S n) s'
      | None =>
          if Ascii.eqb c "_" && negb (Nat.eqb n 0) && starts_with_digit s'
          then digitpart acc n s'
          else (acc, n, s)
      end
  end.

(** An optional sign: [true] for [-]. *)
Definition sign (s : string) : bool * string :=
  match s with
  | String "-" s' => (true, s')
  | String "+" s' => (false, s')
  | _ => (false, s)
  end.

(** White space that [float] and [int] skip at both ends of a [str]. *)
Definition spaces : list string := Str.ascii_blanks ++ Str.wide_spaces.

(** [int(s)] in base 10; [None] is [ValueError]. *)
Definition int_of_str (s : string) : option Z :=
  let (neg, s1) := sign (Str.strip_of spaces s) in
  match digitpart 0 O s1 with
  | (v, S _, EmptyString) => Some (if neg then - v else v)
  | _ => None
  end.

(** [[("e" | "E") [sign] digitpart]], the value of the exponent. *)
Definition exponent (s : string) : option (Z * string) :=
  match s with
  | String c s' =>
      if Ascii.eqb c "e" || Ascii.eqb c "E" then
        let (neg, s1) := sign s' in
        match digitpart 0 O s1 with
        | (v, S _, r) => Some (if neg then - v else v, r)
        | _ => None
        end
      else None
  | EmptyString => None
  end.

(** [floatnumber ::= ([digitpart] "." digitpart | digitpart ["."])
    [exponent]], as the mantissa and the exponent of ten. *)
Definition floatnumber (s : string) : option (Z * Z) :=
  let '(i, ni, s1) := digitpart 0 O s in
  let '(m, nf, s2) :=
    match s1 with
    | String "." s1' => digitpart i O s1'
    | _ => (i, O, s1)
    end in
  match ni, nf with
  | O, O => None
  | _, _ =>
      match s2 with
      | EmptyString => Some (m, - Z.of_nat nf)
      | _ =>
          match exponent s2 with
          | Some (x, EmptyString) => Some (m, x - Z.of_nat nf)
          | _ => None
          end
      end
  end.

(** [float(s)]; [None] is [ValueError]. *)
Definition float_of_str (s : string) : option spec_float :=
  let (neg, s1) := sign (Str.strip_of spaces s) in
  let w := Str.lower s1 in
  if String.eqb w "inf" || String.eqb w "infinity" then Some (S754_infinity neg)
  else if String.eqb w "nan" then Some S754_nan
  else
    match floatnumber s1 with
    | Some (m, e) => Some (Float.of_decimal neg m e)
    | None => None
    end.

End Num.

(** ** [json.loads] *)

(** The decoder of the standard library, with its default settings: strict
    strings, the constants [NaN], [Infinity] and [-Infinity] accepted, the
    last of two equal keys kept.  The limit Python puts on the depth of
    nesting is not modelled. *)

Module Json.

(** [dict[k] = v]: an existing key keeps its place. *)
Fixpoint dict_set (d : list (string * pyval)) (k : string) (v : pyval)
  : list (string * pyval) :=
  match d with
  | [] => [(k, v)]
  | (k', v') :: d' =>
      if String.eqb k' k then (k, v) :: d' else (k', v') :: dict_set d' k v
  end.

Fixpoint dict_get (d : list (string * pyval)) (k : string) : option pyval :=
  match d with
  | [] => None
  | (k', v) :: d' => if String.eqb k' k then Some v else dict_get d' k
  end.

(** The white space of JSON: space, tab, line feed, carriage return. *)
Definition is_ws (c : ascii) : bool :=
  let n := N_of_ascii c in
  (n =? 32)%N || (n =? 9)%N || (n =? 10)%N || (n =? 13)%N.

Fixpoint skip_ws (s : string) : string :=
  match s with
  | String c s' => if is_ws c then skip_ws s' else s
  | EmptyString => s
  end.

Definition hex (c : ascii) : option N :=
  let n := N_of_ascii c in
  if (48 <=? n)%N && (n <=? 57)%N then Some (n - 48)%N
  else if (65 <=? n)%N && (n <=? 70)%N then Some (n - 55)%N
  else if (97 <=? n)%N && (n <=? 102)%N then Some (n - 87)%N
  else None.

Definition hex4 (a b c d : ascii) : option N :=
  match hex a, hex b, hex c, hex d with
  | Some x, Some y, Some z, Some w => Some (((x * 16 + y) * 16 + z) * 16 + w)%N
  | _, _, _, _ => None
  end.

(** [chr(cp)] in UTF-8 (a lone surrogate takes the three-byte form). *)
Definition chr (cp : N) : string :=
  if (cp <? 128)%N then Str.of_codes [cp]
  else if (cp <? 2048)%N then
    Str.of_codes [192 + cp / 64; 128 + cp mod 64]%N
  else if (cp <? 65536)%N then
    Str.of_codes [224 + cp / 4096; 128 + (cp / 64) mod 64; 128 + cp mod 64]%N
  else
    Str.of_codes [240 + cp / 262144; 128 + (cp / 4096) mod 64;
                  128 + (cp / 64) mod 64; 128 + cp mod 64]%N.

Definition is_high_surrogate (u : N) : bool := (55296 <=? u)%N && (u <=? 56319)%N.
Definition is_low_surrogate (u : N) : bool := (56320 <=? u)%N && (u <=? 57343)%N.

(** The characters a backslash may introduce, [u] apart. *)
Definition backslash (c : ascii) : option string :=
  if Ascii.eqb c "034" then Some (String c "")
  else if Ascii.eqb c "\" then Some "\"
  else if Ascii.eqb c "/" then Some "/"
  else if Ascii.eqb c "b" then Some (Str.of_codes [8%N])
  else if Ascii.eqb c "f" then Some (Str.of_codes [12%N])
  else if Ascii.eqb c "n" then Some (Str.of_codes [10%N])
  else if Ascii.eqb c "r" then Some (Str.of_codes [13%N])
  else if Ascii.eqb c "t" then Some (Str.of_codes [9%N])
  else None.

(** The four characters after [\u], and the text after them. *)
Definition four (s : string) : option (ascii * ascii * ascii * ascii * string) :=
  match s with
  | String a (String b (String c (String d r))) => Some (a, b, c, d, r)
  | _ => None
  end.

(** The low surrogate that pairs with the high surrogate [u], when the text
    [s] after [u] starts with the escape of one, and the text after it. *)
Definition low_after (u : N) (s : string) : option (N * string) :=
  match s with
  | String e1 (String e2 r) =>
      if is_high_surrogate u && Ascii.eqb e1 "\" && Ascii.eqb e2 "u" then
        match four r with
        | Some (a, b, x, d, r2) =>
            match hex4 a b x d with
            | Some u2 => if is_low_surrogate u2 then Some (u2, r2) else None
            | None => None
            end
        | None => None
        end
      else None
  | _ => None
  end.

(** [scanstring], strict: [s] is the text after the opening quote; the
    result is the decoded string and the text after the closing quote.  A
    high surrogate joins the low surrogate escape that follows it, if one
    does. *)
Fixpoint scanstring (s : string) : option (string * string) :=
  match s with
  | EmptyString => None
  | String c s' =>
      if Ascii.eqb c "034" then Some ("", s')
      else if Ascii.eqb c "\" then
        match s' with
        | EmptyString => None
        | String e r =>
            if Ascii.eqb e "u" then
              match r with
              | String a (String b (String x (String d r1))) =>
                  match hex4 a b x d with
                  | None => None
                  | Some u =>
                      match r1 with
                      | String e1 (String e2 (String a' (String b'
                          (String x' (String d' r2))))) =>
                          match
                            (if is_high_surrogate u && Ascii.eqb e1 "\"
                                && Ascii.eqb e2 "u"
                             then hex4 a' b' x' d' else None)
                          with
                          | Some u2 =>
                              if is_low_surrogate u2 then
                                match scanstring r2 with
                                | Some (t, r3) =>
                                    Some (chr (65536 + (u - 55296) * 1024
                                               + (u2 - 56320))%N ++ t, r3)
                                | None => None
                                end
                              else
                                match scanstring r1 with
                                | Some (t, r3) => Some (chr u ++ t, r3)
                                | None => None
                                end
                          | None =>
                              match scanstring r1 with
                              | Some (t, r3) => Some (chr u ++ t, r3)
                              | None => None
                              end
                          end
                      | _ =>
                          match scanstring r1 with
                          | Some (t, r3) => Some (chr u ++ t, r3)
                          | None => None
                          end
                      end
                  end
              | _ => None
              end
            else
              match backslash e with
              | Some x =>
                  match scanstring r with
                  | Some (t, r3) => Some (x ++ t, r3)
                  | None => None
                  end
              | None => None
              end
        end
      else if (N_of_ascii c <? 32)%N then None
      else
        match scanstring s' with
        | Some (t, r3) => Some (String c t, r3)
        | None => None
        end
  end.

(** The longest prefix of digits and what follows it. *)
Fixpoint span_digits (s : string) : string * string :=
  match s with
  | EmptyString => ("", "")
  | String c s' =>
      match Num.digit c with
      | Some _ => let (d, r) := span_digits s' in (String c d, r)
      | None => ("", s)
      end
  end.

(** [NUMBER_RE], group by group.  An optional minus sign. *)
Definition minus_part (s : string) : string * string :=
  match s with
  | String c s' => if Ascii.eqb c "-" then ("-", s') else ("", s)
  | EmptyString => ("", s)
  end.

(** A single zero, or a digit from 1 to 9 with any digits after it. *)
Definition int_part (s : string) : option (string * string) :=
  match s with
  | String c r =>
      if Ascii.eqb c "0" then Some ("0", r)
      else
        match Num.digit c with
        | Some _ => Some (span_digits s)
        | None => None
        end
  | EmptyString => None
  end.

(** Optionally, a point with one digit or more. *)
Definition frac_part (s : string) : string * string :=
  match s with
  | String c r =>
      if Ascii.eqb c "." then
        match span_digits r with
        | (EmptyString, _) => ("", s)
        | (d, r') => (String c d, r')
        end
      else ("", s)
  | EmptyString => ("", s)
  end.

(** Optionally, [e] or [E], an optional sign, and one digit or more. *)
Definition exp_part (s : string) : string * string :=
  match s with
  | String c r =>
      if Ascii.eqb c "e" || Ascii.eqb c "E" then
        let (sg, r1) :=
          match r with
          | String g r' =>
              if Ascii.eqb g "-" || Ascii.eqb g "+" then (String g "", r')
              else ("", r)
          | EmptyString => ("", r)
          end in
        match span_digits r1 with
        | (EmptyString, _) => ("", s)
        | (d, r') => (String c (sg ++ d), r')
        end
      else ("", s)
  | EmptyString => ("", s)
  end.

(** The three groups of a match (the sign goes with the integer; a group is
    empty when absent) and the text after the match. *)
Definition match_number (s : string) : option (string * string * string * string) :=
  let (minus, s1) := minus_part s in
  match int_part s1 with
  | None => None
  | Some (int, r) =>
      let (frac, r1) := frac_part r in
      let (exp, r2) := exp_part r1 in
      Some (minus ++ int, frac, exp, r2)
  end.

(** The number a match stands for: [float(integer + frac + exp)] when a
    fraction or an exponent is there, [int(integer)] otherwise. *)
Definition number_value (int frac exp : string) : option pyval :=
  match frac, exp with
  | EmptyString, EmptyString => option_map PInt (Num.int_of_str int)
  | _, _ => option_map PFloat (Num.float_of_str (int ++ frac ++ exp))
  end.

(** The constants [scan_once] knows, the three that Python tries before a
    number and the three it tries after. *)
Definition constant_first (s : string) : option (pyval * string) :=
  match Str.after "null" s with
  | Some r => Some (PNone, r)
  | None =>
      match Str.after "true" s with
      | Some r => Some (PBool true, r)
      | None =>
          match Str.after "false" s with
          | Some r => Some (PBool false, r)
          | None => None
          end
      end
  end.

Definition constant_last (s : string) : option (pyval * string) :=
  match Str.after "NaN" s with
  | Some r => Some (PFloat S754_nan, r)
  | None =>
      match Str.after "Infinity" s with
      | Some r => Some (PFloat (S754_infinity false), r)
      | None =>
          match Str.after "-Infinity" s with
          | Some r => Some (PFloat (S754_infinity true), r)
          | None => None
          end
      end
  end.

Definition number (s : string) : option (pyval * string) :=
  match match_number s with
  | Some (int, frac, exp, r) =>
      match number_value int frac exp with
      | Some v => Some (v, r)
      | None => None
      end
  | None => None
  end.

(** What [scan_once] does when the text starts neither a string, nor an
    object, nor an array. *)
Definition scalar (s : string) : option (pyval * string) :=
  match constant_first s with
  | Some x => Some x
  | None =>
      match match_number s with
      | Some _ => number s
      | None => constant_last s
      end
  end.

Definition quote : string := String "034" "".

(** [scan_once], [JSONObject] and [JSONArray].  [members] starts after the
    opening quote of a key, [elements] at the start of a value; both carry
    what was read before.  [fuel] bounds the depth of the calls. *)
Fixpoint scan_once (fuel : nat) (s : string) : option (pyval * string) :=
  match fuel with
  | O => None
  | S fuel' =>
      match s with
      | EmptyString => None
      | String c s' =>
          if Ascii.eqb c "034" then
            match scanstring s' with
            | Some (t, r) => Some (PStr t, r)
            | None => None
            end
          else if Ascii.eqb c "{" then
            match Str.after "}" (skip_ws s') with
            | Some r => Some (PDict [], r)
            | None =>
                match Str.after quote (skip_ws s') with
                | Some r =>
                    match members fuel' [] r with
                    | Some (d, r') => Some (PDict d, r')
                    | None => None
                    end
                | None => None
                end
            end
          else if Ascii.eqb c "[" then
            match Str.after "]" (skip_ws s') with
            | Some r => Some (PList [], r)
            | None =>
                match elements fuel' [] (skip_ws s') with
                | Some (l, r') => Some (PList l, r')
                | None => None
                end
            end
          else scalar s
      end
  end

with members (fuel : nat) (acc : list (string * pyval)) (s : string)
  : option (list (string * pyval) * string) :=
  match fuel with
  | O => None
  | S fuel' =>
      match scanstring s with
      | None => None
      | Some (key, r) =>
          match Str.after ":" (skip_ws r) with
          | None => None
          | Some r1 =>
              match scan_once fuel' (skip_ws r1) with
              | None => None
              | Some (value, r2) =>
                  let acc' := dict_set acc key value in
                  match Str.after "}" (skip_ws r2) with
                  | Some r3 => Some (acc', r3)
                  | None =>
                      match Str.after "," (skip_ws r2) with
                      | None => None
                      | Some r3 =>
                          match Str.after quote (skip_ws r3) with
                          | Some r4 => members fuel' acc' r4
                          | None => None
                          end
                      end
                  end
              end
          end
      end
  end

with elements (fuel : nat) (acc : list pyval) (s : string)
  : option (list pyval * string) :=
  match fuel with
  | O => None
  | S fuel' =>
      match scan_once fuel' s with
      | None => None
      | Some (value, r) =>
          let acc' := (acc ++ [value])%list in
          match Str.after "]" (skip_ws r) with
          | Some r1 => Some (acc', r1)
          | None =>
              match Str.after "," (skip_ws r) with
              | Some r1 => elements fuel' acc' (skip_ws r1)
              | None => None
              end
          end
      end
  end.

(** The byte order mark U+FEFF. *)
Definition bom : string := Str.of_codes [239; 187; 191]%N.

(** [json.loads(s)] for a [str]. *)
Definition loads (s : string) : result pyval :=
  if Str.startswith bom s then Raise JSONDecodeError
  else
    match scan_once (S (String.length s)) (skip_ws s) with
    | Some (v, r) =>
        match skip_ws r with
        | EmptyString => Ok v
        | _ => Raise JSONDecodeError
        end
    | None => Raise JSONDecodeError
    end.

End Json.

(** ** Operations on values *)

Module Py.

(** [bool(v)]. *)
Definition truthy (v : pyval) : bool :=
  match v with
  | PNone => false
  | PBool b => b
  | PInt n => negb (n =? 0)
  | PFloat f => negb (Float.is_zero f)
  | PStr s => negb (String.eqb s "")
  | PList l => match l with [] => false | _ => true end
  | PDict d => match d with [] => false | _ => true end
  end.

(** [a or b]. *)
Definition or (a b : pyval) : pyval := if truthy a then a else b.

(** [v.get(k, default)]: only a [dict] has the method. *)
Definition get (v : pyval) (k : string) (default : pyval) : result pyval :=
  match v with
  | PDict d =>
      Ok (match Json.dict_get d k with Some x => x | None => default end)
  | _ => Raise AttributeError
  end.

(** [v[k]] for a [str] key. *)
Definition getitem (v : pyval) (k : string) : result pyval :=
  match v with
  | PDict d =>
      match Json.dict_get d k with
      | Some x => Ok x
      | None => Raise KeyError
      end
  | _ => Raise TypeError
  end.

(** [v[k] = x] for a [str] key. *)
Definition setitem (v : pyval) (k : string) (x : pyval) : result pyval :=
  match v with
  | PDict d => Ok (PDict (Json.dict_set d k x))
  | _ => Raise TypeError
  end.

(** [isinstance(v, list)]. *)
Definition is_list (v : pyval) : bool :=
  match v with
  | PList _ => true
  | _ => false
  end.

(** [float(v)]. *)
Definition float (v : pyval) : result spec_float :=
  match v with
  | PFloat f => Ok f
  | PInt n => Float.of_int n
  | PBool b => Float.of_int (Z.b2z b)
  | PStr s =>
      match Num.float_of_str s with
      | Some f => Ok f
      | None => Raise ValueError
      end
  | PNone | PList _ | PDict _ => Raise TypeError
  end.

(** [int(v)]. *)
Definition int (v : pyval) : result Z :=
  match v with
  | PInt n => Ok n
  | PBool b => Ok (Z.b2z b)
  | PFloat f => Float.to_int f
  | PStr s =>
      match Num.int_of_str s with
      | Some n => Ok n
      | None => Raise ValueError
      end
  | PNone | PList _ | PDict _ => Raise TypeError
  end.

End Py.

(** ** Pydantic models *)

Record DetailedTip : Type := {
  original_timestamp : string;
  transcribed_timestamp : string;
  suggestion : string
}.

Record FeedbackReport : Type := {
  score : spec_float;
  overall_feedback : string;
  word_repetition_score : spec_float;
  word_repetition_count : Z;
  speaking_pace_score : spec_float;
  speaking_pace_count : Z;
  filler_words_score : spec_float;
  voice_clarity_score : spec_float;
  filler_words_count : Z;
  repetitive_words_list : list string;
  detailed_tips : list DetailedTip
}.

Record GenerateRequest : Type := {
  topic : string;
  duration : option Z
}.

(** The dictionary [coerced] of [get_feedback_from_gemini].  The score and
    count entries hold what [float] and [int] returned; the other three hold
    values that have not been checked yet. *)
Record coerced_dict : Type := {
  co_score : spec_float;
  co_overall_feedback : pyval;
  co_word_repetition_score : spec_float;
  co_word_repetition_count : Z;
  co_speaking_pace_score : spec_float;
  co_speaking_pace_count : Z;
  co_filler_words_score : spec_float;
  co_voice_clarity_score : spec_float;
  co_filler_words_count : Z;
  co_repetitive_words_list : pyval;
  co_detailed_tips : pyval
}.

Module Pydantic.

(** A field of type [str]: every [str] is taken as it is, a lone
    surrogate included; no other type is converted. *)
Definition validate_str (v : pyval) : result string :=
  match v with
  | PStr s => Ok s
  | _ => Raise ValidationError
  end.

(** [List[T]], given the validation of [T]. *)
Fixpoint validate_items {A : Type} (item : pyval -> result A) (l : list pyval)
  : result (list A) :=
  match l with
  | [] => Ok []
  | v :: l' =>
      x <- item v ;;
      xs <- validate_items item l' ;;
      Ok (x :: xs)
  end.

Definition validate_list {A : Type} (item : pyval -> result A) (v : pyval)
  : result (list A) :=
  match v with
  | PList l => validate_items item l
  | _ => Raise ValidationError
  end.

(** A required field of a model given as a [dict]. *)
Definition field {A : Type} (item : pyval -> result A)
  (d : list (string * pyval)) (k : string) : result A :=
  match Json.dict_get d k with
  | Some v => item v
  | None => Raise ValidationError
  end.

(** [DetailedTip] from a [dict]; keys outside the model are ignored. *)
Definition validate_DetailedTip (v : pyval) : result DetailedTip :=
  match v with
  | PDict d =>
      o <- field validate_str d "original_timestamp" ;;
      t <- field validate_str d "transcribed_timestamp" ;;
      g <- field validate_str d "suggestion" ;;
      Ok {| original_timestamp := o;
            transcribed_timestamp := t;
            suggestion := g |}
  | _ => Raise ValidationError
  end.

(** [FeedbackReport] built from the entries of [coerced] given as keyword
    arguments. *)
Definition validate_FeedbackReport (c : coerced_dict) : result FeedbackReport :=
  f <- validate_str (co_overall_feedback c) ;;
  w <- validate_list validate_str (co_repetitive_words_list c) ;;
  t <- validate_list validate_DetailedTip (co_detailed_tips c) ;;
  Ok {| score := co_score c;
        overall_feedback := f;
        word_repetition_score := co_word_repetition_score c;
        word_repetition_count := co_word_repetition_count c;
        speaking_pace_score := co_speaking_pace_score c;
        speaking_pace_count := co_speaking_pace_count c;
        filler_words_score := co_filler_words_score c;
        voice_clarity_score := co_voice_clarity_score c;
        filler_words_count := co_filler_words_count c;
        repetitive_words_list := w;
        detailed_tips := t |}.

(** [GenerateRequest(topic=..., duration=...)]: [duration] is [None] when
    the field is absent, [Some None] when it is [null]. *)
Definition make_GenerateRequest (topic : string) (duration : option (option Z))
  : GenerateRequest :=
  {| topic := topic;
     duration := match duration with Some d => d | None => Some 3 end |}.

Definition dump_DetailedTip (t : DetailedTip) : pyval :=
  PDict [("original_timestamp", PStr (original_timestamp t));
         ("transcribed_timestamp", PStr (transcribed_timestamp t));
         ("suggestion", PStr (suggestion t))].

(** [r.model_dump()]. *)
Definition model_dump (r : FeedbackReport) : pyval :=
  PDict [("score", PFloat (score r));
         ("overall_feedback", PStr (overall_feedback r));
         ("word_repetition_score", PFloat (word_repetition_score r));
         ("word_repetition_count", PInt (word_repetition_count r));
         ("speaking_pace_score", PFloat (speaking_pace_score r));
         ("speaking_pace_count", PInt (speaking_pace_count r));
         ("filler_words_score", PFloat (filler_words_score r));
         ("voice_clarity_score", PFloat (voice_clarity_score r));
         ("filler_words_count", PInt (filler_words_count r));
         ("repetitive_words_list", PList (map PStr (repetitive_words_list r)));
         ("detailed_tips", PList (map dump_DetailedTip (detailed_tips r)))].

(** A [float] as it comes back from JSON: infinities and NaN are written
    as [null]. *)
Definition json_float (f : spec_float) : pyval :=
  match f with
  | S754_nan | S754_infinity _ => PNone
  | _ => PFloat f
  end.

(** The [str] values of a report, in the order of its fields. *)
Definition tip_strings (t : DetailedTip) : list string :=
  [original_timestamp t; transcribed_timestamp t; suggestion t].

Definition report_strings (r : FeedbackReport) : list string :=
  (overall_feedback r :: repetitive_words_list r
   ++ flat_map tip_strings (detailed_tips r))%list.

(** [json.loads(r.model_dump_json())].  [model_dump_json] writes UTF-8 and
    raises on a [str] that has no UTF-8 encoding. *)
Definition model_dump_json_loads (r : FeedbackReport) : result pyval :=
  if existsb Str.has_surrogate (report_strings r) then Raise SerializationError
  else
  Ok (PDict [("score", json_float (score r));
         ("overall_feedback", PStr (overall_feedback r));
         ("word_repetition_score", json_float (word_repetition_score r));
         ("word_repetition_count", PInt (word_repetition_count r));
         ("speaking_pace_score", json_float (speaking_pace_score r));
         ("speaking_pace_count", PInt (speaking_pace_count r));
         ("filler_words_score", json_float (filler_words_score r));
         ("voice_clarity_score", json_float (voice_clarity_score r));
         ("filler_words_count", PInt (filler_words_count r));
         ("repetitive_words_list", PList (map PStr (repetitive_words_list r)));
         ("detailed_tips", PList (map dump_DetailedTip (detailed_tips r)))]).

End Pydantic.

(** ** The provider *)

(** What a call of [generate_content] is given.  The wording of a prompt is
    fixed text around these values; the provider is opaque, so only the
    values are kept. *)
Inductive prompt : Type :=
| ScriptPrompt (topic : string) (duration : Z)
| TranscriptionPrompt (mime_type : string) (audio_bytes : string)
| FeedbackPrompt (original_script transcription : pyval).

(** What the operating system does with [open(path, 'wb')] followed by
    [f.write(data)]: [open] may fail; once it has succeeded the file is
    empty, and a [write] that fails leaves the first [written] bytes of the
    data in the file. *)
Inductive write_outcome : Type :=
| OpenFails
| WriteFails (written : nat)
| WriteSucceeds.

(** The local file [speech.wav] ([None] when there is none) and what the
    next attempt to write it meets. *)
Record filesystem : Type := {
  speech_wav : option string;
  disk : write_outcome
}.

Record UploadFile : Type := {
  content_type : option string;
  filename : option string;
  content : string
}.

Record Request : Type := {
  request_headers : list (string * string)
}.

(** A response: its status, the headers the code gives it and its body.
    The headers that describe the body ([content-length],
    [content-type]) are left out. *)
Record Response : Type := {
  status_code : Z;
  headers : list (string * string);
  body : string
}.

(** [request.headers.get(name)]: header names are compared without regard
    to case. *)
Fixpoint headers_get (hs : list (string * string)) (name : string) : option string :=
  match hs with
  | [] => None
  | (k, v) :: hs' =>
      if String.eqb (Str.lower k) (Str.lower name) then Some v
      else headers_get hs' name
  end.

Definition ALLOWED_ORIGINS : list string :=
  ["https://frontend-53528.web.app";
   "https://frontend-53528.firebaseapp.com";
   "https://backend-0d8r.onrender.com";
   "http://localhost:5173";
   "http://127.0.0.1:5173";
   "http://localhost:3000";
   "http://127.0.0.1:3000"].

(** [x in l] for a list of [str]. *)
Definition str_in (x : string) (l : list string) : bool :=
  existsb (String.eqb x) l.

(** The body shared by [options_generate_script] and [options_analyze]. *)
Definition preflight (request : Request) : Response :=
  let origin := headers_get (request_headers request) "Origin" in
  let allow_origin :=
    match origin with
    | Some o =>
        if negb (String.eqb o "") && str_in o ALLOWED_ORIGINS then o
        else match ALLOWED_ORIGINS with a :: _ => a | [] => "*" end
    | None => match ALLOWED_ORIGINS with a :: _ => a | [] => "*" end
    end in
  {| status_code := 200;
     headers :=
       [("Access-Control-Allow-Origin", allow_origin);
        ("Access-Control-Allow-Methods", "POST, OPTIONS");
        ("Access-Control-Allow-Headers", "Content-Type, Authorization");
        ("Access-Control-Max-Age", "3600");
        ("Access-Control-Allow-Credentials", "true")];
     body := "" |}.

Definition options_generate_script (request : Request) : Response :=
  preflight request.

Definition options_analyze (request : Request) : Response :=
  preflight request.

(** ** The CORS middleware *)

(** Starlette's [CORSMiddleware] as [app.add_middleware] configures it:
    [allow_origins=ALLOWED_ORIGINS], [allow_credentials=True], the six
    methods below, [allow_headers=["*"]], [expose_headers=["*"]],
    [max_age=3600].  It stands in front of every route. *)
Module CORSMiddleware.

Definition allow_methods : list string :=
  ["GET"; "POST"; "PUT"; "DELETE"; "OPTIONS"; "PATCH"].

(** [headers[name] = value] on the headers of a response: the first header
    of that name takes the value and the later ones are removed; a new
    header is added at the end when there is none. *)
Fixpoint headers_set (hs : list (string * string)) (name value : string)
  : list (string * string) :=
  match hs with
  | [] => [(name, value)]
  | (k, v) :: hs' =>
      if String.eqb (Str.lower k) (Str.lower name)
      then (k, value)
           :: filter (fun kv => negb (String.eqb (Str.lower (fst kv)) (Str.lower name))) hs'
      else (k, v) :: headers_set hs' name value
  end.

(** [headers.update(new)]. *)
Definition headers_update (hs new : list (string * string)) : list (string * string) :=
  fold_left (fun hs kv => headers_set hs (fst kv) (snd kv)) new hs.

(** [headers.add_vary_header(vary)]. *)
Definition add_vary_header (hs : list (string * string)) (vary : string)
  : list (string * string) :=
  match headers_get hs "vary" with
  | Some existing => headers_set hs "vary" (existing ++ ", " ++ vary)
  | None => headers_set hs "vary" vary
  end.

(** The headers computed once, when the middleware is set up. *)
Definition simple_headers : list (string * string) :=
  [("Access-Control-Allow-Credentials", "true");
   ("Access-Control-Expose-Headers", "*")].

Definition preflight_headers : list (string * string) :=
  [("Vary", "Origin");
   ("Access-Control-Allow-Methods", String.concat ", " allow_methods);
   ("Access-Control-Max-Age", "3600");
   ("Access-Control-Allow-Credentials", "true")].

Definition is_allowed_origin (origin : string) : bool :=
  str_in origin ALLOWED_ORIGINS.

(** The answer to a preflight request; no route is called.  Every
    requested header is allowed, so [Access-Control-Request-Headers] is
    sent back as it came. *)
Definition preflight_response (requested_origin requested_method : string)
  (requested_headers : option string) : Response :=
  let headers :=
    if is_allowed_origin requested_origin
    then headers_set preflight_headers "Access-Control-Allow-Origin" requested_origin
    else preflight_headers in
  let failures :=
    ((if is_allowed_origin requested_origin then [] else ["origin"])
     ++ (if str_in requested_method allow_methods then [] else ["method"]))%list in
  let headers :=
    match requested_headers with
    | Some h => headers_set headers "Access-Control-Allow-Headers" h
    | None => headers
    end in
  match failures with
  | [] => {| status_code := 200; headers := headers; body := "OK" |}
  | _ =>
      {| status_code := 400; headers := headers;
         body := "Disallowed CORS " ++ String.concat ", " failures |}
  end.

(** What the middleware does to the response of a route when the request
    has an origin and is not a preflight. *)
Definition simple_response (origin : string) (response : Response) : Response :=
  let headers := headers_update (headers response) simple_headers in
  let headers :=
    if is_allowed_origin origin
    then add_vary_header (headers_set headers "Access-Control-Allow-Origin" origin)
           "Origin"
    else headers in
  {| status_code := status_code response; headers := headers;
     body := body response |}.

(** A request of method [OPTIONS] for the route [route]: without an
    origin it goes to the route untouched; with an origin and the header
    [Access-Control-Request-Method] it is a preflight, which the middleware
    answers itself. *)
Definition options (route : Request -> Response) (request : Request) : Response :=
  match headers_get (request_headers request) "origin" with
  | None => route request
  | Some origin =>
      match headers_get (request_headers request) "access-control-request-method" with
      | Some requested_method =>
          preflight_response origin requested_method
            (headers_get (request_headers request) "access-control-request-headers")
      | None => simple_response origin (route request)
      end
  end.

End CORSMiddleware.

(** [OPTIONS /generate_script] and [OPTIONS /analyze], as the application
    answers them. *)
Definition http_options_generate_script (request : Request) : Response :=
  CORSMiddleware.options options_generate_script request.

Definition http_options_analyze (request : Request) : Response :=
  CORSMiddleware.options options_analyze request.

(** [response.text.strip().replace("```json", "").replace("```", "")], the
    clean-up every call site applies to the provider's text. *)
Definition json_response (text : string) : string :=
  Str.replace "```" "" (Str.replace "```json" "" (Str.strip text)).

Definition entry (timestamp line : string) : pyval :=
  PDict [("timestamp", PStr timestamp); ("line", PStr line)].

(** The fallback of [generate_script_from_topic]. *)
Definition default_script : pyval :=
  PDict [("title", PStr "Default Topic");
         ("script",
          PList [entry "00:00-00:05" "API call failed. This is a default script.";
                 entry "00:06-00:12"
                   "Please check your API key and network connection."])].

(** The fallback of [transcribe_audio_bytes]. *)
Definition default_transcription : pyval :=
  PDict [("transcription",
          PList [entry "00:00-00:05" "Audio transcription failed.";
                 entry "00:06-00:11"
                   "Please check the audio file format and your API setup."])].

(** The fallback of [get_feedback_from_gemini]. *)
Definition default_report : FeedbackReport :=
  {| score := Float.zero;
     overall_feedback :=
       "Could not generate valid feedback due to an API or parsing error.";
     word_repetition_score := Float.zero;
     word_repetition_count := 0;
     speaking_pace_score := Float.zero;
     speaking_pace_count := 0;
     filler_words_score := Float.zero;
     voice_clarity_score := Float.zero;
     filler_words_count := 0;
     repetitive_words_list := [];
     detailed_tips := [] |}.

(** *** The Report Coercer *)

(** [float(feedback_data.get(k, 0.0) or 0.0)]. *)
Definition score_entry (feedback_data : pyval) (k : string) : result spec_float :=
  v <- Py.get feedback_data k (PFloat Float.zero) ;;
  Py.float (Py.or v (PFloat Float.zero)).

(** [int(feedback_data.get(k, 0) or 0)]. *)
Definition count_entry (feedback_data : pyval) (k : string) : result Z :=
  v <- Py.get feedback_data k (PInt 0) ;;
  Py.int (Py.or v (PInt 0)).

(** [feedback_data.get(k, "") or ""]. *)
Definition text_entry (feedback_data : pyval) (k : string) : result pyval :=
  v <- Py.get feedback_data k (PStr "") ;;
  Ok (Py.or v (PStr "")).

(** [feedback_data.get(k) or []]. *)
Definition list_entry (feedback_data : pyval) (k : string) : result pyval :=
  v <- Py.get feedback_data k PNone ;;
  Ok (Py.or v (PList [])).

(** [if not isinstance(v, list): v = []]. *)
Definition ensure_list (v : pyval) : pyval :=
  if negb (Py.is_list v) then PList [] else v.

(** The dictionary display [coerced = {...}], its entries evaluated in the
    order they are written, and the two statements that follow it. *)
Definition coerce (feedback_data : pyval) : result coerced_dict :=
  s <- score_entry feedback_data "score" ;;
  o <- text_entry feedback_data "overall_feedback" ;;
  wrs <- score_entry feedback_data "word_repetition_score" ;;
  wrc <- count_entry feedback_data "word_repetition_count" ;;
  sps <- score_entry feedback_data "speaking_pace_score" ;;
  spc <- count_entry feedback_data "speaking_pace_count" ;;
  fws <- score_entry feedback_data "filler_words_score" ;;
  vcs <- score_entry feedback_data "voice_clarity_score" ;;
  fwc <- count_entry feedback_data "filler_words_count" ;;
  rwl <- list_entry feedback_data "repetitive_words_list" ;;
  dt <- list_entry feedback_data "detailed_tips" ;;
  Ok {| co_score := s;
        co_overall_feedback := o;
        co_word_repetition_score := wrs;
        co_word_repetition_count := wrc;
        co_speaking_pace_score := sps;
        co_speaking_pace_count := spc;
        co_filler_words_score := fws;
        co_voice_clarity_score := vcs;
        co_filler_words_count := fwc;
        co_repetitive_words_list := ensure_list rwl;
        co_detailed_tips := ensure_list dt |}.

(** The lines between [json.loads] and [return FeedbackReport(...)]. *)
Definition coerce_and_validate (feedback_data : pyval) : result FeedbackReport :=
  c <- coerce feedback_data ;;
  Pydantic.validate_FeedbackReport c.

Section Provider.

(** [model.generate_content(...)] followed by [response.text]: the text of
    the answer, or the exception either step raised. *)
Variable generate_content : prompt -> result string.

(** [mimetypes.guess_type(name)[0]]. *)
Variable guess_type : string -> option string.

(** The first statement prints the topic, before the [try] block is
    entered. *)
Definition generate_script_from_topic (topic : string) (duration : Z)
  : result pyval :=
  _ <- print [topic] ;;
  Ok (try_except
        (text <- generate_content (ScriptPrompt topic duration) ;;
         data <- Json.loads (json_response text) ;;
         data <- Py.setitem data "title" (PStr ("Presentation on " ++ topic)) ;;
         Ok data)
        (fun _ => default_script)).

Definition transcribe_audio_bytes (mime_type audio_bytes : string) : pyval :=
  try_except
    (let mime_type := if String.eqb mime_type "" then "audio/webm" else mime_type in
     text <- generate_content (TranscriptionPrompt mime_type audio_bytes) ;;
     data <- Json.loads (json_response text) ;;
     Ok data)
    (fun _ => default_transcription).

(** The [try] block of [get_feedback_from_gemini]. *)
Definition feedback_try (p : prompt) : result FeedbackReport :=
  text <- generate_content p ;;
  feedback_data <- Json.loads (json_response text) ;;
  coerce_and_validate feedback_data.

(** The two [except] clauses print a message and fall through to the
    final [return]. *)
Definition feedback_except (e : exn) : FeedbackReport :=
  match e with
  | ValidationError | JSONDecodeError => default_report
  | _ => default_report
  end.

(** The prompt is built before the [try] block is entered. *)
Definition get_feedback_from_gemini (original_script transcription_data : pyval)
  : result FeedbackReport :=
  transcription <- Py.getitem transcription_data "transcription" ;;
  let p := FeedbackPrompt original_script transcription in
  Ok (try_except (feedback_try p) feedback_except).

(** [payload.duration or 3]. *)
Definition duration_or_3 (d : option Z) : Z :=
  match d with
  | Some n => if n =? 0 then 3 else n
  | None => 3
  end.

Definition api_generate_script (payload : GenerateRequest) : result pyval :=
  generate_script_from_topic (topic payload) (duration_or_3 (duration payload)).

(** The first [try] statement of [api_analyze]. *)
Definition parse_original_script (original_script_json : string) : pyval :=
  try_except
    (original_container <- Json.loads original_script_json ;;
     if Py.is_list original_container then Ok original_container
     else Py.get original_container "script" (PList []))
    (fun _ => PList []).

(** The second [try] statement.  Whatever [open] or [write] raises is
    caught, so the handler goes on; the file is left as the failed step
    left it. *)
Definition save_audio (fs : filesystem) (audio_bytes : string) : filesystem :=
  match disk fs with
  | OpenFails => fs
  | WriteFails written =>
      {| speech_wav := Some (String.substring 0 written audio_bytes);
         disk := disk fs |}
  | WriteSucceeds => {| speech_wav := Some audio_bytes; disk := disk fs |}
  end.

(** [a or b] for an optional [str]. *)
Definition str_or (a b : option string) : option string :=
  match a with
  | Some s => if String.eqb s "" then b else a
  | None => b
  end.

(** [audio.content_type or mimetypes.guess_type(audio.filename or "")[0]
    or "audio/webm"]. *)
Definition upload_mime_type (audio : UploadFile) : string :=
  let name := match filename audio with Some n => n | None => "" end in
  match str_or (str_or (content_type audio) (guess_type name)) (Some "audio/webm") with
  | Some m => m
  | None => "audio/webm"
  end.

Definition api_analyze (fs : filesystem) (audio : UploadFile)
  (original_script_json : string) : filesystem * result pyval :=
  let original_script := parse_original_script original_script_json in
  let audio_bytes := content audio in
  let fs' := save_audio fs audio_bytes in
  let mime_type := upload_mime_type audio in
  let transcription_data := transcribe_audio_bytes mime_type audio_bytes in
  (fs',
   feedback <- get_feedback_from_gemini original_script transcription_data ;;
   Pydantic.model_dump_json_loads feedback).

(** What the client of [POST /analyze] gets: FastAPI answers 422 itself,
    without calling the handler, when a required form field is missing or
    empty; otherwise 200 with the value the handler returns, or 500 when
    the handler raises. *)
Inductive http_outcome : Type :=
| Http200 (content : pyval)
| Http422
| Http500 (e : exn).

(** [POST /analyze] with the form field [original_script_json: str =
    Form(...)]. *)
Definition post_analyze (fs : filesystem) (audio : UploadFile)
  (original_script_json : option string) : filesystem * http_outcome :=
  match original_script_json with
  | None => (fs, Http422)
  | Some text =>
      if String.eqb text "" then (fs, Http422)
      else
        let (fs', returned) := api_analyze fs audio text in
        (fs', match returned with
              | Ok content => Http200 content
              | Raise e => Http500 e
              end)
  end.

End Provider.

(** ** Providers and data used in examples *)

(** A provider that answers every prompt with the same text. *)
Definition answers (text : string) : prompt -> result string :=
  fun _ => Ok text.

(** A provider that cannot be reached. *)
Definition unreachable : prompt -> result string :=
  fun _ => Raise APIError.

(** A file-name table that knows no extension. *)
Definition no_guess : string -> option string := fun _ => None.

(** A JSON text written with single quotes in place of double quotes. *)
Definition json (s : string) : string := Str.replace "'" (String "034" "") s.

Definition line_feed : string := Str.of_codes [10%N].

Definition empty_transcription : pyval := PDict [("transcription", PList [])].

(** The duration [api_generate_script] hands over, in the words of the
    specification: the field of the request when it holds a truthy value,
    3 when it is absent, [null] or 0. *)
Definition spec_duration (field : option (option Z)) : Z :=
  match field with
  | None => 3
  | Some None => 3
  | Some (Some n) => if n =? 0 then 3 else n
  end.

(** The first entry of a script. *)
Definition first_entry (data : pyval) : result pyval :=
  script <- Py.getitem data "script" ;;
  match script with
  | PList (e :: _) => Ok e
  | _ => Raise KeyError
  end.

(** A header of a response. *)
Definition header (r : Response) (name : string) : option string :=
  headers_get (headers r) name.

(** The header [Origin] of a request. *)
Definition origin_of (request : Request) : option string :=
  headers_get (request_headers request) "Origin".

(** The header [Access-Control-Request-Method] of a request, which marks
    a preflight, and its header [Access-Control-Request-Headers]. *)
Definition requested_method_of (request : Request) : option string :=
  headers_get (request_headers request) "Access-Control-Request-Method".

Definition requested_headers_of (request : Request) : option string :=
  headers_get (request_headers request) "Access-Control-Request-Headers".

(** The allowed origin in the words of the specification: the origin of
    the request when it is on the allow-list, the first entry of the list
    otherwise. *)
Definition spec_allow_origin (origin : option string) : string :=
  match origin with
  | Some o => if str_in o ALLOWED_ORIGINS then o else "https://frontend-53528.web.app"
  | None => "https://frontend-53528.web.app"
  end.

(** What an [OPTIONS] request is answered with, [r] being the response.
    A preflight (a request with an origin and a requested method) gets the
    answer of the middleware: the origin is allowed only when it is on the
    list, the methods are those of the middleware, the requested headers
    are sent back, and the status is 400 unless origin and method are
    allowed.  Any other request gets the answer of the route, as the
    specification words it. *)
Definition options_answer (request : Request) (r : Response) : Prop :=
  match origin_of request, requested_method_of request with
  | Some o, Some m =>
      status_code r
      = (if str_in o ALLOWED_ORIGINS && str_in m CORSMiddleware.allow_methods
         then 200 else 400)
      /\ header r "Access-Control-Allow-Origin"
         = (if str_in o ALLOWED_ORIGINS then Some o else None)
      /\ header r "Access-Control-Allow-Methods"
         = Some "GET, POST, PUT, DELETE, OPTIONS, PATCH"
      /\ header r "Access-Control-Allow-Headers" = requested_headers_of request
      /\ header r "Access-Control-Max-Age" = Some "3600"
  | origin, _ =>
      status_code r = 200
      /\ header r "Access-Control-Allow-Origin" = Some (spec_allow_origin origin)
      /\ header r "Access-Control-Allow-Methods" = Some "POST, OPTIONS"
      /\ header r "Access-Control-Allow-Headers" = Some "Content-Type, Authorization"
      /\ header r "Access-Control-Max-Age" = Some "3600"
  end.


Definition listed_preflight : Request :=
  {| request_headers :=
       [("Origin", "http://localhost:5173");
        ("Access-Control-Request-Method", "POST");
        ("Access-Control-Request-Headers", "content-type")] |}.

(** *** The coercion policy in the words of the specification *)

(** A score: [float] of the value, 0.0 when the key is absent or the value
    is falsy. *)
Definition policy_score (d : list (string * pyval)) (k : string) : result spec_float :=
  match Json.dict_get d k with
  | None => Ok Float.zero
  | Some v => if Py.truthy v then Py.float v else Ok Float.zero
  end.

(** A count: [int] of the value, 0 when the key is absent or the value is
    falsy. *)
Definition policy_count (d : list (string * pyval)) (k : string) : result Z :=
  match Json.dict_get d k with
  | None => Ok 0
  | Some v => if Py.truthy v then Py.int v else Ok 0
  end.

(** [overall_feedback]: the value, the empty string when the key is absent
    or the value is falsy. *)
Definition policy_text (d : list (string * pyval)) (k : string) : pyval :=
  match Json.dict_get d k with
  | None => PStr ""
  | Some v => if Py.truthy v then v else PStr ""
  end.

(** A list field: the value when it is a list, the empty list when the key
    is absent or the value is not a list. *)
Definition policy_list (d : list (string * pyval)) (k : string) : pyval :=
  match Json.dict_get d k with
  | None => PList []
  | Some (PList l) => PList l
  | Some _ => PList []
  end.

Definition coercion_policy (d : list (string * pyval)) : result coerced_dict :=
  s <- policy_score d "score" ;;
  wrs <- policy_score d "word_repetition_score" ;;
  wrc <- policy_count d "word_repetition_count" ;;
  sps <- policy_score d "speaking_pace_score" ;;
  spc <- policy_count d "speaking_pace_count" ;;
  fws <- policy_score d "filler_words_score" ;;
  vcs <- policy_score d "voice_clarity_score" ;;
  fwc <- policy_count d "filler_words_count" ;;
  Ok {| co_score := s;
        co_overall_feedback := policy_text d "overall_feedback";
        co_word_repetition_score := wrs;
        co_word_repetition_count := wrc;
        co_speaking_pace_score := sps;
        co_speaking_pace_count := spc;
        co_filler_words_score := fws;
        co_voice_clarity_score := vcs;
        co_filler_words_count := fwc;
        co_repetitive_words_list := policy_list d "repetitive_words_list";
        co_detailed_tips := policy_list d "detailed_tips" |}.

(** *** The range invariant of the data model *)

Definition score_in_range (f : spec_float) : bool :=
  SFleb Float.zero f
  && SFleb f (Float.round 10 0).

Definition count_in_range (n : Z) : bool := 0 <=? n.

Definition report_in_range (r : FeedbackReport) : bool :=
  score_in_range (score r)
  && score_in_range (word_repetition_score r)
  && score_in_range (speaking_pace_score r)
  && score_in_range (filler_words_score r)
  && score_in_range (voice_clarity_score r)
  && count_in_range (word_repetition_count r)
  && count_in_range (speaking_pace_count r)
  && count_in_range (filler_words_count r).

Definition coerced_in_range (c : coerced_dict) : bool :=
  score_in_range (co_score c)
  && score_in_range (co_word_repetition_score c)
  && score_in_range (co_speaking_pace_score c)
  && score_in_range (co_filler_words_score c)
  && score_in_range (co_voice_clarity_score c)
  && count_in_range (co_word_repetition_count c)
  && count_in_range (co_speaking_pace_count c)
  && count_in_range (co_filler_words_count c).

(** *** Feeding a report back *)

(** A score as it comes out of a second coercion: negative zero is falsy,
    so the literal [0.0] replaces it. *)
Definition positive_zero (f : spec_float) : spec_float :=
  if Float.is_zero f then Float.zero else f.

Definition with_positive_zeros (r : FeedbackReport) : FeedbackReport :=
  {| score := positive_zero (score r);
     overall_feedback := overall_feedback r;
     word_repetition_score := positive_zero (word_repetition_score r);
     word_repetition_count := word_repetition_count r;
     speaking_pace_score := positive_zero (speaking_pace_score r);
     speaking_pace_count := speaking_pace_count r;
     filler_words_score := positive_zero (filler_words_score r);
     voice_clarity_score := positive_zero (voice_clarity_score r);
     filler_words_count := filler_words_count r;
     repetitive_words_list := repetitive_words_list r;
     detailed_tips := detailed_tips r |}.

(** No score of the report is negative zero. *)
Definition no_negative_zero (r : FeedbackReport) : Prop :=
  with_positive_zeros r = r.

(** ** Notions used to state the properties of the parser *)

(** A text made of JSON white space only. *)
Definition all_ws (t : string) : Prop := Json.skip_ws t = "".

(** No character of [p] is JSON white space. *)
Fixpoint no_ws (p : string) : bool :=
  match p with
  | EmptyString => true
  | String a p' => negb (Json.is_ws a) && no_ws p'
  end.

(** [c] occurs in [p]. *)
Fixpoint has_char (c : ascii) (p : string) : bool :=
  match p with
  | EmptyString => false
  | String a p' => Ascii.eqb a c || has_char c p'
  end.

(** No occurrence of [old] in [a ++ b] starts inside [a]. *)
Fixpoint no_start (old a b : string) : bool :=
  match a with
  | EmptyString => true
  | String _ a' => negb (Str.startswith old (a ++ b)) && no_start old a' b
  end.

(** The rest of a parse with [t] appended to the text that was left. *)
Definition extend {A : Type} (t : string) (x : option (A * string))
  : option (A * string) :=
  match x with
  | Some (v, r) => Some (v, r ++ t)
  | None => None
  end.

(** A document between a code fence [fence] and the closing fence, each on
    a line of its own. *)
Definition fenced (fence document : string) : string :=
  fence ++ line_feed ++ document ++ line_feed ++ "```".

(** ** The command-line helpers *)

Section CommandLine.

(** [model.generate_content([prompt, audio_part])] followed by
    [response.text] in [transcribe_audio_with_timestamps], given the MIME
    type and the data of the audio part. *)
Variable generate_transcription : string -> string -> result string.

(** [mimetypes.guess_type(path)[0]]. *)
Variable guess_type : string -> option string.

(** [open(path, "rb")] followed by [f.read()]: the bytes of the file, or the
    exception raised. *)
Variable read_file : string -> result string.

(** [os.path.exists(path)]. *)
Variable path_exists : string -> bool.

(** The first statement prints the path, before the [try] block is
    entered. *)
Definition transcribe_audio_with_timestamps (audio_path : string) : result pyval :=
  _ <- print [audio_path] ;;
  Ok (try_except
        (audio_bytes <- read_file audio_path ;;
         let mime_type :=
           match guess_type audio_path with
           | Some m => m
           | None => "audio/wav"
           end in
         text <- generate_transcription mime_type audio_bytes ;;
         data <- Json.loads (json_response text) ;;
         Ok data)
        (fun _ => default_transcription)).

(** The loop of [get_audio_from_user]: [inputs] holds the lines the user
    types, in order; the result is [None] when the loop asks for a line and
    none is left ([input] raises). *)
Fixpoint ask_for_path (inputs : list string) (audio_path : string) : option string :=
  if path_exists audio_path then Some audio_path
  else
    match inputs with
    | [] => None
    | answer :: inputs' => ask_for_path inputs' answer
    end.

Definition get_audio_from_user (inputs : list string) : option string :=
  ask_for_path inputs "speech.wav".

End CommandLine.

(** ** Notions used to state further properties *)

(** The keys of the scores and of the counts. *)
Definition score_keys : list string :=
  ["score"; "word_repetition_score"; "speaking_pace_score";
   "filler_words_score"; "voice_clarity_score"].

Definition count_keys : list string :=
  ["word_repetition_count"; "speaking_pace_count"; "filler_words_count"].

(** The report in which every field has the default of the coercion. *)
Definition blank_report : FeedbackReport :=
  {| score := Float.zero;
     overall_feedback := "";
     word_repetition_score := Float.zero;
     word_repetition_count := 0;
     speaking_pace_score := Float.zero;
     speaking_pace_count := 0;
     filler_words_score := Float.zero;
     voice_clarity_score := Float.zero;
     filler_words_count := 0;
     repetitive_words_list := [];
     detailed_tips := [] |}.

(** The value [v] is an object that holds the three fields of the tip [t]
    as strings. *)
Definition tip_of (v : pyval) (t : DetailedTip) : Prop :=
  exists d,
    v = PDict d
    /\ Json.dict_get d "original_timestamp" = Some (PStr (original_timestamp t))
    /\ Json.dict_get d "transcribed_timestamp" = Some (PStr (transcribed_timestamp t))
    /\ Json.dict_get d "suggestion" = Some (PStr (suggestion t)).

(** A score value that lies in the range: the key is absent, or holds
    [null], an integer from 0 to 10, or a float from 0.0 to 10.0. *)
Definition score_value_in_range (v : option pyval) : Prop :=
  match v with
  | None | Some PNone => True
  | Some (PInt n) => 0 <= n <= 10
  | Some (PFloat f) => score_in_range f = true
  | Some _ => False
  end.

(** A count value that lies in the range: the key is absent, or holds
    [null] or a non-negative integer. *)
Definition count_value_in_range (v : option pyval) : Prop :=
  match v with
  | None | Some PNone => True
  | Some (PInt n) => 0 <= n
  | Some _ => False
  end.

(** * Properties *)

(** ** The fallback of [get_feedback_from_gemini] *)

Section FeedbackFallback.

Variable generate_content : prompt -> result string.
Variables original_script transcription_data transcription : pyval.

Hypothesis has_transcription :
  Py.getitem transcription_data "transcription" = Ok transcription.

Let p := FeedbackPrompt original_script transcription.

Lemma get_feedback_unfold :
  get_feedback_from_gemini generate_content original_script transcription_data
  = Ok (try_except (feedback_try generate_content p) feedback_except).
Proof.
  unfold get_feedback_from_gemini. rewrite has_transcription. reflexivity.
Qed.

Lemma feedback_except_default (e : exn) : feedback_except e = default_report.
Proof. destruct e; reflexivity. Qed.

Lemma get_feedback_raise (e : exn) :
  feedback_try generate_content p = Raise e ->
  get_feedback_from_gemini generate_content original_script transcription_data
  = Ok default_report.
Proof.
  intros H. rewrite get_feedback_unfold, H. simpl.
  now rewrite feedback_except_default.
Qed.

Lemma get_feedback_ok (r : FeedbackReport) :
  feedback_try generate_content p = Ok r ->
  get_feedback_from_gemini generate_content original_script transcription_data
  = Ok r.
Proof. intros H. now rewrite get_feedback_unfold, H. Qed.

End FeedbackFallback.

(** Claim C1 fails on the code: [get_feedback_from_gemini] looks up
    [transcription] before its [try] block is entered, so whatever the
    feedback payload is (the provider is not even asked) it raises
    [KeyError] on transcription data that is an object without that key,
    and [TypeError] on transcription data that is no object.  It returns a
    report in every other case. *)
Theorem get_feedback_raises_without_transcription_key :
  forall (generate_content : prompt -> result string)
         (original_script transcription_data : pyval),
    let returned :=
      get_feedback_from_gemini generate_content original_script transcription_data in
    match transcription_data with
    | PDict d =>
        match Json.dict_get d "transcription" with
        | Some _ => exists r, returned = Ok r
        | None => returned = Raise KeyError
        end
    | _ => returned = Raise TypeError
    end.
Proof.
  intros gc os td returned. subst returned. unfold get_feedback_from_gemini.
  destruct td; try reflexivity. cbn [Py.getitem].
  destruct (Json.dict_get d "transcription"); [| reflexivity].
  eexists. reflexivity.
Qed.

(** Once its prompt is built (the transcription data has the key
    [transcription]), [get_feedback_from_gemini] returns a report whatever
    the provider answers, and the report is [default_report] whenever the
    provider call, the JSON decoding, the coercion or the validation
    raises. *)
Theorem get_feedback_never_raises :
  forall (generate_content : prompt -> result string)
         (original_script transcription_data transcription : pyval),
    Py.getitem transcription_data "transcription" = Ok transcription ->
    let p := FeedbackPrompt original_script transcription in
    let returned :=
      get_feedback_from_gemini generate_content original_script transcription_data in
    (exists r, returned = Ok r)
    /\ (forall e, generate_content p = Raise e -> returned = Ok default_report)
    /\ (forall text e,
          generate_content p = Ok text ->
          Json.loads (json_response text) = Raise e ->
          returned = Ok default_report)
    /\ (forall text feedback_data e,
          generate_content p = Ok text ->
          Json.loads (json_response text) = Ok feedback_data ->
          coerce feedback_data = Raise e ->
          returned = Ok default_report)
    /\ (forall text feedback_data c e,
          generate_content p = Ok text ->
          Json.loads (json_response text) = Ok feedback_data ->
          coerce feedback_data = Ok c ->
          Pydantic.validate_FeedbackReport c = Raise e ->
          returned = Ok default_report).
Proof.
  intros gc os td t Ht p returned. subst returned.
  repeat split.
  - destruct (feedback_try gc p) as [r | e] eqn:E.
    + exists r. now apply get_feedback_ok with (transcription := t).
    + exists default_report. now apply get_feedback_raise with (transcription := t) (e := e).
  - intros e H. apply get_feedback_raise with (transcription := t) (e := e); auto.
    unfold feedback_try. fold p. now rewrite H.
  - intros text e H1 H2.
    apply get_feedback_raise with (transcription := t) (e := e); auto.
    unfold feedback_try. fold p. rewrite H1. simpl. now rewrite H2.
  - intros text fd e H1 H2 H3.
    apply get_feedback_raise with (transcription := t) (e := e); auto.
    unfold feedback_try, coerce_and_validate. fold p.
    rewrite H1. simpl. rewrite H2. simpl. now rewrite H3.
  - intros text fd c e H1 H2 H3 H4.
    apply get_feedback_raise with (transcription := t) (e := e); auto.
    unfold feedback_try, coerce_and_validate. fold p.
    rewrite H1. simpl. rewrite H2. simpl. rewrite H3. simpl. exact H4.
Qed.

Lemma get_feedback_never_raises_witness :
  Py.getitem empty_transcription "transcription" = Ok (PList [])
  /\ get_feedback_from_gemini (answers "no JSON here") (PList []) empty_transcription
     = Ok default_report.
Proof.
  split; [reflexivity |].
  destruct (get_feedback_never_raises (answers "no JSON here") (PList [])
              empty_transcription (PList []) eq_refl) as (_ & _ & H & _).
  exact (H "no JSON here" JSONDecodeError eq_refl eq_refl).
Defined.

(** ** Non-object feedback documents *)

Lemma get_non_dict (v : pyval) (k : string) (default : pyval) :
  (forall d, v <> PDict d) -> Py.get v k default = Raise AttributeError.
Proof.
  intros H. destruct v; try reflexivity. now contradiction (H d).
Qed.

Lemma coerce_non_dict (v : pyval) :
  (forall d, v <> PDict d) -> coerce v = Raise AttributeError.
Proof.
  intros H. unfold coerce, score_entry. now rewrite get_non_dict.
Qed.

(** Claim C10.  When the provider's text decodes to a JSON value that is not
    an object, the first field lookup raises [AttributeError], no field is
    coerced, and [get_feedback_from_gemini] returns [default_report]. *)
Theorem non_object_feedback_gives_default :
  forall (generate_content : prompt -> result string)
         (original_script transcription_data transcription : pyval)
         (text : string) (document : pyval),
    Py.getitem transcription_data "transcription" = Ok transcription ->
    generate_content (FeedbackPrompt original_script transcription) = Ok text ->
    Json.loads (json_response text) = Ok document ->
    (forall d, document <> PDict d) ->
    coerce document = Raise AttributeError
    /\ get_feedback_from_gemini generate_content original_script transcription_data
       = Ok default_report.
Proof.
  intros gc os td t text v Ht Hg Hl Hv.
  pose proof (coerce_non_dict v Hv) as Hc.
  split; [exact Hc |].
  apply get_feedback_raise with (transcription := t) (e := AttributeError); auto.
  unfold feedback_try, coerce_and_validate.
  rewrite Hg. simpl. rewrite Hl. simpl. now rewrite Hc.
Qed.

Lemma non_object_feedback_gives_default_witness :
  Json.loads (json_response (json "[{'score': 7}]"))
  = Ok (PList [PDict [("score", PInt 7)]])
  /\ get_feedback_from_gemini (answers (json "[{'score': 7}]")) (PList [])
       empty_transcription
     = Ok default_report.
Proof.
  split; [reflexivity |].
  refine (proj2 (non_object_feedback_gives_default
                   (answers (json "[{'score': 7}]")) (PList [])
                   empty_transcription (PList []) _ _
                   eq_refl eq_refl eq_refl _)).
  intros d H. discriminate H.
Defined.

(** ** Script generation *)

(** Claim C9.  [api_generate_script] hands the topic over unchanged, and as
    duration the request's field when it is truthy and 3 when the field is
    absent, [null] or 0. *)
Theorem api_generate_script_duration :
  forall (generate_content : prompt -> result string)
         (topic : string) (field : option (option Z)),
    api_generate_script generate_content (Pydantic.make_GenerateRequest topic field)
    = generate_script_from_topic generate_content topic (spec_duration field)
    /\ generate_script_from_topic generate_content topic (spec_duration field)
       = (_ <- print [topic] ;;
          Ok (try_except
                (text <- generate_content (ScriptPrompt topic (spec_duration field)) ;;
                 data <- Json.loads (json_response text) ;;
                 Py.setitem data "title" (PStr ("Presentation on " ++ topic)))
                (fun _ => default_script))).
Proof.
  intros gc t field. split.
  - unfold api_generate_script. simpl.
    destruct field as [[n |] |]; reflexivity.
  - unfold generate_script_from_topic.
    destruct (print [t]); simpl; auto.
    destruct (gc (ScriptPrompt t (spec_duration field))) as [text | e]; simpl; auto.
    destruct (Json.loads (json_response text)) as [data | e]; simpl; auto.
    destruct (Py.setitem data "title" _); reflexivity.
Qed.

Lemma print_encodable (s : string) :
  Str.has_surrogate s = false -> print [s] = Ok tt.
Proof. intros H. unfold print. simpl. now rewrite H. Qed.

Lemma print_not_encodable (s : string) :
  Str.has_surrogate s = true -> print [s] = Raise UnicodeEncodeError.
Proof. intros H. unfold print. simpl. now rewrite H. Qed.

(** Claim C4, as amended.  For a topic that standard output can encode
    (the handler prints it first), when the provider call fails,
    [api_generate_script] returns [default_script]: its title is the fixed
    text "Default Topic" whatever the topic is, and its first entry is the
    one the claim quotes. *)
Theorem failed_script_generation_gives_default :
  forall (generate_content : prompt -> result string)
         (payload : GenerateRequest) (e : exn),
    Str.has_surrogate (topic payload) = false ->
    generate_content (ScriptPrompt (topic payload) (duration_or_3 (duration payload)))
    = Raise e ->
    let returned := api_generate_script generate_content payload in
    returned = Ok default_script
    /\ (data <- returned ;; Py.getitem data "title") = Ok (PStr "Default Topic")
    /\ (data <- returned ;; first_entry data)
       = Ok (entry "00:00-00:05" "API call failed. This is a default script.").
Proof.
  intros gc payload e Ht H returned.
  assert (Hd : returned = Ok default_script).
  { subst returned. unfold api_generate_script, generate_script_from_topic.
    rewrite (print_encodable _ Ht). simpl. now rewrite H. }
  rewrite Hd. repeat split; reflexivity.
Qed.

Lemma failed_script_generation_gives_default_witness :
  api_generate_script unreachable {| topic := "Intro to Rust"; duration := Some 5 |}
  = Ok default_script.
Proof.
  exact (proj1 (failed_script_generation_gives_default unreachable
                  {| topic := "Intro to Rust"; duration := Some 5 |}
                  APIError eq_refl eq_refl)).
Defined.

(** Claim C4 as stated fails: with the topic "Intro to Rust" and a provider
    that cannot be reached, the handler returns a script whose title is
    "Default Topic", not "Presentation on Intro to Rust". *)
Lemma fallback_title_is_not_the_topic :
  exists data,
    api_generate_script unreachable {| topic := "Intro to Rust"; duration := Some 5 |}
    = Ok data
    /\ Py.getitem data "title" = Ok (PStr "Default Topic")
    /\ Py.getitem data "title" <> Ok (PStr ("Presentation on " ++ "Intro to Rust")).
Proof.
  exists default_script. repeat split. vm_compute. discriminate.
Qed.

(** ** Preflight requests *)

Lemma str_in_In (x : string) (l : list string) : str_in x l = true <-> In x l.
Proof.
  unfold str_in. rewrite existsb_exists. split.
  - intros (y & Hy & E). apply String.eqb_eq in E. now subst.
  - intros H. exists x. split; auto. apply String.eqb_refl.
Qed.

Lemma allowed_origin_not_empty : ~ In "" ALLOWED_ORIGINS.
Proof. rewrite <- str_in_In. vm_compute. discriminate. Qed.

Lemma allowed_origin_truthy (o : string) :
  str_in o ALLOWED_ORIGINS = true -> String.eqb o "" = false.
Proof.
  intros H. apply String.eqb_neq. intros ->.
  apply str_in_In in H. now apply allowed_origin_not_empty.
Qed.

Lemma headers_get_lower (hs : list (string * string)) (a b : string) :
  Str.lower a = Str.lower b -> headers_get hs a = headers_get hs b.
Proof.
  intros H. induction hs as [| [k v] hs IH]; simpl; [reflexivity |].
  now rewrite H, IH.
Qed.

(** The middleware in front of the body the two routes share. *)
Lemma cors_options_answer (request : Request) :
  options_answer request (CORSMiddleware.options preflight request).
Proof.
  unfold options_answer, origin_of, requested_method_of, requested_headers_of,
    CORSMiddleware.options, header.
  rewrite (headers_get_lower _ "origin" "Origin") by reflexivity.
  rewrite (headers_get_lower _ "access-control-request-method"
             "Access-Control-Request-Method") by reflexivity.
  rewrite (headers_get_lower _ "access-control-request-headers"
             "Access-Control-Request-Headers") by reflexivity.
  destruct (headers_get (request_headers request) "Origin") as [o |] eqn:Ho.
  - destruct (headers_get (request_headers request) "Access-Control-Request-Method")
      as [m |] eqn:Hm.
    + unfold CORSMiddleware.preflight_response, CORSMiddleware.is_allowed_origin.
      destruct (str_in o ALLOWED_ORIGINS);
        destruct (str_in m CORSMiddleware.allow_methods);
        destruct (headers_get (request_headers request)
                    "Access-Control-Request-Headers");
        repeat split.
    + unfold CORSMiddleware.simple_response, CORSMiddleware.is_allowed_origin,
        preflight, spec_allow_origin.
      rewrite Ho.
      destruct (str_in o ALLOWED_ORIGINS) eqn:E.
      * rewrite (allowed_origin_truthy o E). repeat split.
      * rewrite andb_false_r. repeat split.
  - unfold preflight. rewrite Ho. repeat split.
Qed.



(** ** The Report Coercer *)

Lemma score_entry_policy (d : list (string * pyval)) (k : string) :
  score_entry (PDict d) k = policy_score d k.
Proof.
  unfold score_entry, policy_score, Py.get, Py.or. simpl.
  destruct (Json.dict_get d k) as [v |]; [| reflexivity].
  destruct (Py.truthy v); reflexivity.
Qed.

Lemma count_entry_policy (d : list (string * pyval)) (k : string) :
  count_entry (PDict d) k = policy_count d k.
Proof.
  unfold count_entry, policy_count, Py.get, Py.or. simpl.
  destruct (Json.dict_get d k) as [v |]; [| reflexivity].
  destruct (Py.truthy v); reflexivity.
Qed.

Lemma text_entry_policy (d : list (string * pyval)) (k : string) :
  text_entry (PDict d) k = Ok (policy_text d k).
Proof.
  unfold text_entry, policy_text, Py.get, Py.or. simpl.
  destruct (Json.dict_get d k) as [v |]; [| reflexivity].
  destruct (Py.truthy v); reflexivity.
Qed.

Lemma list_entry_policy (d : list (string * pyval)) (k : string) :
  exists v, list_entry (PDict d) k = Ok v /\ ensure_list v = policy_list d k.
Proof.
  unfold list_entry, policy_list, Py.get, Py.or. simpl.
  destruct (Json.dict_get d k) as [v |].
  - exists (if Py.truthy v then v else PList []). split; [reflexivity |].
    destruct v as [| b | n | f | s | l | m]; simpl; try reflexivity.
    + now destruct b.
    + now destruct (negb (n =? 0)).
    + now destruct (negb (Float.is_zero f)).
    + now destruct (negb (String.eqb s "")).
    + now destruct l.
    + now destruct m.
  - exists (PList []). split; reflexivity.
Qed.

(** Claim C2.  On every JSON object the coercion written in
    [get_feedback_from_gemini] is the field-by-field policy of the
    specification. *)
Theorem coerce_follows_policy :
  forall d : list (string * pyval), coerce (PDict d) = coercion_policy d.
Proof.
  intros d. unfold coerce, coercion_policy.
  rewrite !score_entry_policy, !count_entry_policy, text_entry_policy.
  destruct (list_entry_policy d "repetitive_words_list") as (w & Hw & Ew).
  destruct (list_entry_policy d "detailed_tips") as (t & Ht & Et).
  rewrite Hw, Ht, <- Ew, <- Et.
  destruct (policy_score d "score"); simpl; [| reflexivity].
  destruct (policy_score d "word_repetition_score"); simpl; [| reflexivity].
  destruct (policy_count d "word_repetition_count"); simpl; [| reflexivity].
  destruct (policy_score d "speaking_pace_score"); simpl; [| reflexivity].
  destruct (policy_count d "speaking_pace_count"); simpl; [| reflexivity].
  destruct (policy_score d "filler_words_score"); simpl; [| reflexivity].
  destruct (policy_score d "voice_clarity_score"); simpl; [| reflexivity].
  destruct (policy_count d "filler_words_count"); simpl; reflexivity.
Qed.

(** ** Ranges of scores and counts *)

Lemma validate_keeps_numbers (c : coerced_dict) (r : FeedbackReport) :
  Pydantic.validate_FeedbackReport c = Ok r ->
  score r = co_score c
  /\ word_repetition_score r = co_word_repetition_score c
  /\ speaking_pace_score r = co_speaking_pace_score c
  /\ filler_words_score r = co_filler_words_score c
  /\ voice_clarity_score r = co_voice_clarity_score c
  /\ word_repetition_count r = co_word_repetition_count c
  /\ speaking_pace_count r = co_speaking_pace_count c
  /\ filler_words_count r = co_filler_words_count c.
Proof.
  unfold Pydantic.validate_FeedbackReport.
  destruct (Pydantic.validate_str _); simpl; [| discriminate].
  destruct (Pydantic.validate_list Pydantic.validate_str _); simpl; [| discriminate].
  destruct (Pydantic.validate_list Pydantic.validate_DetailedTip _); simpl;
    [| discriminate].
  intros H. injection H as <-. simpl. repeat split.
Qed.

Lemma feedback_try_inv (gc : prompt -> result string) (p : prompt) (r : FeedbackReport) :
  feedback_try gc p = Ok r ->
  exists text feedback_data c,
    gc p = Ok text
    /\ Json.loads (json_response text) = Ok feedback_data
    /\ coerce feedback_data = Ok c
    /\ Pydantic.validate_FeedbackReport c = Ok r.
Proof.
  unfold feedback_try, coerce_and_validate.
  destruct (gc p) as [text |] eqn:E1; simpl; [| discriminate].
  destruct (Json.loads (json_response text)) as [fd |] eqn:E2; simpl;
    [| discriminate].
  destruct (coerce fd) as [c |] eqn:E3; simpl; [| discriminate].
  intros H. exists text, fd, c. repeat split; assumption.
Qed.

(** Claim C6, as amended.  No range is enforced: a report that
    [get_feedback_from_gemini] returns is [default_report], which is within
    the ranges, or it carries the scores and counts of the coerced
    dictionary unchanged, so that it is within the ranges exactly when they
    are. *)
Theorem report_ranges_come_from_upstream :
  forall (generate_content : prompt -> result string)
         (original_script transcription_data : pyval) (r : FeedbackReport),
    get_feedback_from_gemini generate_content original_script transcription_data
    = Ok r ->
    report_in_range default_report = true
    /\ (r = default_report
        \/ exists transcription text feedback_data c,
             generate_content (FeedbackPrompt original_script transcription) = Ok text
             /\ Json.loads (json_response text) = Ok feedback_data
             /\ coerce feedback_data = Ok c
             /\ score r = co_score c
             /\ word_repetition_score r = co_word_repetition_score c
             /\ speaking_pace_score r = co_speaking_pace_score c
             /\ filler_words_score r = co_filler_words_score c
             /\ voice_clarity_score r = co_voice_clarity_score c
             /\ word_repetition_count r = co_word_repetition_count c
             /\ speaking_pace_count r = co_speaking_pace_count c
             /\ filler_words_count r = co_filler_words_count c
             /\ report_in_range r = coerced_in_range c).
Proof.
  intros gc os td r H. split; [reflexivity |].
  unfold get_feedback_from_gemini in H.
  destruct (Py.getitem td "transcription") as [t |]; simpl in H; [| discriminate].
  injection H as H.
  destruct (feedback_try gc (FeedbackPrompt os t)) as [r' | e] eqn:E; simpl in H.
  - subst r'. right.
    destruct (feedback_try_inv _ _ _ E) as (text & fd & c & H1 & H2 & H3 & H4).
    exists t, text, fd, c.
    destruct (validate_keeps_numbers _ _ H4) as (E1 & E2 & E3 & E4 & E5 & E6 & E7 & E8).
    repeat (split; [assumption |]).
    unfold report_in_range, coerced_in_range.
    now rewrite E1, E2, E3, E4, E5, E6, E7, E8.
  - left. now rewrite feedback_except_default in H.
Qed.

Lemma report_ranges_come_from_upstream_witness :
  report_in_range default_report = true.
Proof.
  exact (proj1 (report_ranges_come_from_upstream
                  (answers (json "{'score': 7.5}")) (PList []) empty_transcription
                  _ eq_refl)).
Defined.

(** Claim C6 as stated fails: a payload with a score of 11 and a count of
    -3 comes back with these very values. *)
Lemma out_of_range_values_pass_through :
  exists r,
    get_feedback_from_gemini
      (answers (json "{'score': 11, 'filler_words_count': -3}"))
      (PList []) empty_transcription
    = Ok r
    /\ score r = Float.round 11 0
    /\ filler_words_count r = -3
    /\ report_in_range r = false.
Proof. eexists. repeat split. Qed.

(** ** The [/analyze] handler *)

(** Claim C7 fails on the code.  The transcription call answers with the
    JSON object [{}]: [transcribe_audio_bytes] returns it as it is, the
    lookup of [transcription] raises [KeyError] outside every [try] block,
    and [api_analyze] raises instead of returning a report, whatever the
    original script is; an answer that is no object, such as [[]], gives
    [TypeError].  An empty [original_script_json] does not reach the
    handler: FastAPI answers 422.  So a request with the unparseable
    script "not json" is answered 500. *)
Theorem analyze_raises_without_transcription_key :
  forall (guess_type : string -> option string) (fs : filesystem)
         (audio : UploadFile) (original_script_json : string),
    transcribe_audio_bytes (answers "{}") (upload_mime_type guess_type audio)
      (content audio)
    = PDict []
    /\ snd (api_analyze (answers "{}") guess_type fs audio original_script_json)
       = Raise KeyError
    /\ snd (api_analyze (answers "[]") guess_type fs audio original_script_json)
       = Raise TypeError
    /\ snd (post_analyze (answers "{}") guess_type fs audio (Some original_script_json))
       = (if String.eqb original_script_json "" then Http422 else Http500 KeyError)
    /\ parse_original_script "not json" = PList []
    /\ snd (post_analyze (answers "{}") guess_type fs audio (Some "not json"))
       = Http500 KeyError.
Proof.
  intros gt fs audio s.
  assert (H : transcribe_audio_bytes (answers "{}") (upload_mime_type gt audio)
                (content audio) = PDict []).
  { unfold transcribe_audio_bytes, answers. reflexivity. }
  assert (K : forall s', snd (api_analyze (answers "{}") gt fs audio s') = Raise KeyError).
  { intros s'. unfold api_analyze. cbn [snd]. rewrite H. reflexivity. }
  assert (P : forall s', String.eqb s' "" = false ->
                snd (post_analyze (answers "{}") gt fs audio (Some s')) = Http500 KeyError).
  { intros s' E. unfold post_analyze. rewrite E.
    pose proof (K s') as K'.
    destruct (api_analyze (answers "{}") gt fs audio s') as [fs' returned].
    cbn [snd] in *. now rewrite K'. }
  split; [exact H |]. split; [apply K |]. split.
  { unfold api_analyze. cbn [snd].
    assert (L : transcribe_audio_bytes (answers "[]") (upload_mime_type gt audio)
                  (content audio) = PList []).
    { unfold transcribe_audio_bytes, answers. reflexivity. }
    rewrite L. reflexivity. }
  split.
  { destruct (String.eqb s "") eqn:E.
    - unfold post_analyze. now rewrite E.
    - now apply P. }
  split; [reflexivity |]. now apply P.
Qed.

(** ** Feeding a report back to the coercer *)

Lemma validate_str_inv (v : pyval) (s : string) :
  Pydantic.validate_str v = Ok s -> v = PStr s.
Proof.
  destruct v; simpl; try discriminate.
  intros H. now injection H as <-.
Qed.

Lemma validate_items_Forall {A : Type} (item : pyval -> result A) (P : A -> Prop) :
  (forall v x, item v = Ok x -> P x) ->
  forall l xs, Pydantic.validate_items item l = Ok xs -> Forall P xs.
Proof.
  intros HP. induction l as [| v l IH]; simpl; intros xs H.
  - injection H as <-. constructor.
  - destruct (item v) as [x |] eqn:Ex; simpl in H; [| discriminate].
    destruct (Pydantic.validate_items item l) as [ys |]; simpl in H; [| discriminate].
    injection H as <-. constructor; eauto.
Qed.

Lemma validate_items_dump {A : Type} (item : pyval -> result A) (dump : A -> pyval) :
  (forall x, item (dump x) = Ok x) ->
  forall xs, Pydantic.validate_items item (map dump xs) = Ok xs.
Proof.
  intros HP. induction xs as [| x xs IH]; simpl; [reflexivity |].
  now rewrite (HP x), IH.
Qed.

Lemma validate_list_Forall {A : Type} (item : pyval -> result A) (P : A -> Prop) :
  (forall v x, item v = Ok x -> P x) ->
  forall v xs, Pydantic.validate_list item v = Ok xs -> Forall P xs.
Proof.
  intros HP v xs. destruct v; simpl; try discriminate.
  now apply validate_items_Forall.
Qed.

Lemma field_inv {A : Type} (item : pyval -> result A) (d : list (string * pyval))
  (k : string) (x : A) :
  Pydantic.field item d k = Ok x -> exists v, item v = Ok x.
Proof.
  unfold Pydantic.field. destruct (Json.dict_get d k) as [v |]; [| discriminate].
  intros H. now exists v.
Qed.

Lemma validate_dump_DetailedTip (t : DetailedTip) :
  Pydantic.validate_DetailedTip (Pydantic.dump_DetailedTip t) = Ok t.
Proof. now destruct t. Qed.

Lemma truthy_score (f : spec_float) :
  (if Py.truthy (PFloat f) then Py.float (PFloat f) else Ok Float.zero)
  = Ok (positive_zero f).
Proof. unfold positive_zero. simpl. now destruct (Float.is_zero f). Qed.

Lemma truthy_count (n : Z) :
  (if Py.truthy (PInt n) then Py.int (PInt n) else Ok 0) = Ok n.
Proof. simpl. destruct (Z.eqb_spec n 0); simpl; congruence. Qed.

Lemma truthy_text (s : string) :
  (if Py.truthy (PStr s) then PStr s else PStr "") = PStr s.
Proof. simpl. destruct (String.eqb_spec s ""); simpl; congruence. Qed.

Lemma coerce_model_dump (r : FeedbackReport) :
  coerce_and_validate (Pydantic.model_dump r) = Ok (with_positive_zeros r).
Proof.
  unfold coerce_and_validate, Pydantic.model_dump, coerce.
  rewrite !score_entry_policy, !count_entry_policy, text_entry_policy.
  unfold policy_score, policy_count, policy_text, list_entry, Py.get.
  cbn [Json.dict_get String.eqb Ascii.eqb Bool.eqb andb].
  rewrite !truthy_score, !truthy_count, truthy_text.
  cbn [bind]. unfold Pydantic.validate_FeedbackReport.
  replace (ensure_list (Py.or (PList (map PStr (repetitive_words_list r))) (PList [])))
    with (PList (map PStr (repetitive_words_list r)))
    by now destruct (repetitive_words_list r).
  replace (ensure_list
             (Py.or (PList (map Pydantic.dump_DetailedTip (detailed_tips r))) (PList [])))
    with (PList (map Pydantic.dump_DetailedTip (detailed_tips r)))
    by now destruct (detailed_tips r).
  cbn [co_overall_feedback co_repetitive_words_list co_detailed_tips
       Pydantic.validate_list Pydantic.validate_str bind].
  rewrite (validate_items_dump Pydantic.validate_str PStr (fun s => eq_refl)).
  rewrite (validate_items_dump Pydantic.validate_DetailedTip
             Pydantic.dump_DetailedTip validate_dump_DetailedTip).
  reflexivity.
Qed.

Lemma positive_zero_idem (f : spec_float) :
  positive_zero (positive_zero f) = positive_zero f.
Proof. now destruct f. Qed.

(** Claim C3, as amended.  Feeding the field values of a report the coercer
    produced back through the coercion gives the same report, except that a
    score of negative zero comes back as 0.0: the result is identical when
    no score is negative zero, and it is always unchanged by a further
    pass. *)
Theorem coercion_idempotent_up_to_zero_sign :
  forall (feedback_data : pyval) (r : FeedbackReport),
    coerce_and_validate feedback_data = Ok r ->
    coerce_and_validate (Pydantic.model_dump r) = Ok (with_positive_zeros r)
    /\ (no_negative_zero r -> coerce_and_validate (Pydantic.model_dump r) = Ok r)
    /\ coerce_and_validate (Pydantic.model_dump (with_positive_zeros r))
       = Ok (with_positive_zeros r).
Proof.
  intros fd r _.
  split; [| split].
  - apply coerce_model_dump.
  - intros Hz. rewrite (coerce_model_dump r). f_equal. exact Hz.
  - rewrite coerce_model_dump.
    unfold with_positive_zeros. simpl. now rewrite !positive_zero_idem.
Qed.

Lemma coercion_idempotent_up_to_zero_sign_witness :
  coerce_and_validate
    (Pydantic.model_dump
       {| score := Float.round 7 0;
          overall_feedback := "Good";
          word_repetition_score := Float.zero;
          word_repetition_count := 2;
          speaking_pace_score := Float.zero;
          speaking_pace_count := 0;
          filler_words_score := Float.zero;
          voice_clarity_score := Float.zero;
          filler_words_count := 0;
          repetitive_words_list := ["um"];
          detailed_tips := [] |})
  = Ok {| score := Float.round 7 0;
          overall_feedback := "Good";
          word_repetition_score := Float.zero;
          word_repetition_count := 2;
          speaking_pace_score := Float.zero;
          speaking_pace_count := 0;
          filler_words_score := Float.zero;
          voice_clarity_score := Float.zero;
          filler_words_count := 0;
          repetitive_words_list := ["um"];
          detailed_tips := [] |}.
Proof.
  refine (proj1 (proj2 (coercion_idempotent_up_to_zero_sign
            (PDict [("score", PInt 7); ("overall_feedback", PStr "Good");
                    ("word_repetition_count", PStr "2");
                    ("repetitive_words_list", PList [PStr "um"])])
            _ eq_refl)) _).
  reflexivity.
Defined.

(** Claim C3 as stated fails: the payload gives the score as the string
    "-0.0"; the report holds negative zero, and feeding its values back
    gives the score 0.0. *)
Lemma negative_zero_is_not_kept :
  exists r r',
    coerce_and_validate (PDict [("score", PStr "-0.0")]) = Ok r
    /\ coerce_and_validate (Pydantic.model_dump r) = Ok r'
    /\ score r = S754_zero true
    /\ score r' = S754_zero false
    /\ r' <> r.
Proof.
  do 2 eexists. repeat split. discriminate.
Qed.

(** ** Strings *)

Lemma append_empty_r (s : string) : s ++ "" = s.
Proof. induction s; simpl; congruence. Qed.

Lemma append_assoc (a b c : string) : (a ++ b) ++ c = a ++ (b ++ c).
Proof. induction a; simpl; congruence. Qed.

Lemma length_append (a b : string) :
  String.length (a ++ b) = (String.length a + String.length b)%nat.
Proof. induction a; simpl; congruence. Qed.

Lemma rev_append (a b : string) : Str.rev (a ++ b) = Str.rev b ++ Str.rev a.
Proof.
  induction a; simpl.
  - now rewrite append_empty_r.
  - now rewrite IHa, append_assoc.
Qed.

Lemma rev_involutive (s : string) : Str.rev (Str.rev s) = s.
Proof. induction s; simpl; [reflexivity |]. now rewrite rev_append, IHs. Qed.

(** ** White space *)

Lemma is_ws_cases (c : ascii) :
  Json.is_ws c = true -> c = " "%char \/ c = "009"%char \/ c = "010"%char \/ c = "013"%char.
Proof.
  unfold Json.is_ws. intros H.
  rewrite <- (ascii_N_embedding c).
  repeat (apply orb_true_iff in H; destruct H as [H | H]);
    apply N.eqb_eq in H; rewrite H; simpl; tauto.
Qed.

Lemma ws_not_digit (c : ascii) : Json.is_ws c = true -> Num.digit c = None.
Proof. intros H. destruct (is_ws_cases c H) as [-> | [-> | [-> | ->]]]; reflexivity. Qed.

Lemma ws_differs (a c : ascii) :
  Json.is_ws a = false -> Json.is_ws c = true -> Ascii.eqb a c = false.
Proof.
  intros Ha Hc. destruct (Ascii.eqb_spec a c); [| reflexivity]. congruence.
Qed.

Lemma all_ws_head (c : ascii) (t : string) :
  all_ws (String c t) -> Json.is_ws c = true /\ all_ws t.
Proof.
  unfold all_ws. simpl. destruct (Json.is_ws c); [auto | discriminate].
Qed.

Lemma skip_ws_append (s t : string) :
  all_ws t ->
  Json.skip_ws (s ++ t)
  = match Json.skip_ws s with
    | EmptyString => ""
    | r => r ++ t
    end.
Proof.
  intros Ht. induction s as [| c s IH]; simpl.
  - exact Ht.
  - destruct (Json.is_ws c); [exact IH | reflexivity].
Qed.

Lemma after_append (p s t : string) :
  no_ws p = true -> p <> "" -> all_ws t ->
  Str.after p (s ++ t) = option_map (fun r => r ++ t) (Str.after p s).
Proof.
  intros Hp Hne Ht. revert s Hp Hne.
  induction p as [| a p IH]; intros s Hp Hne; [congruence |].
  simpl in Hp. apply andb_true_iff in Hp. destruct Hp as [Ha Hp].
  apply negb_true_iff in Ha.
  destruct s as [| b s]; simpl.
  - destruct t as [| c t]; [reflexivity |].
    destruct (all_ws_head _ _ Ht) as [Hc _]. now rewrite (ws_differs a c).
  - destruct (Ascii.eqb a b); [| reflexivity].
    destruct p as [| a' p']; [reflexivity |]. apply IH; [assumption | discriminate].
Qed.

(** [after] on a text whose white space was skipped: appending white space
    changes nothing but the text that is left. *)
Lemma after_skip_ws_append (p s t : string) :
  no_ws p = true -> p <> "" -> all_ws t ->
  Str.after p (Json.skip_ws (s ++ t))
  = option_map (fun r => r ++ t) (Str.after p (Json.skip_ws s)).
Proof.
  intros Hp Hne Ht. rewrite skip_ws_append by assumption.
  destruct (Json.skip_ws s) as [| c r] eqn:E.
  - destruct p; [congruence | reflexivity].
  - now apply after_append.
Qed.

(** ** Numbers *)

Lemma span_digits_append (s t : string) :
  all_ws t ->
  Json.span_digits (s ++ t) = let (d, r) := Json.span_digits s in (d, r ++ t).
Proof.
  intros Ht. induction s as [| c s IH]; simpl.
  - destruct t as [| c t]; [reflexivity |]. simpl.
    destruct (all_ws_head _ _ Ht) as [Hc _]. now rewrite (ws_not_digit c Hc).
  - destruct (Num.digit c); [| reflexivity].
    rewrite IH. now destruct (Json.span_digits s).
Qed.

Lemma minus_part_append (s t : string) :
  all_ws t ->
  Json.minus_part (s ++ t) = let (m, r) := Json.minus_part s in (m, r ++ t).
Proof.
  intros Ht. destruct s as [| c s]; simpl.
  - destruct t as [| c t]; [reflexivity |]. simpl.
    destruct (all_ws_head _ _ Ht) as [Hc _].
    now destruct (is_ws_cases c Hc) as [-> | [-> | [-> | ->]]].
  - now destruct (Ascii.eqb c "-").
Qed.

Lemma int_part_append (s t : string) :
  all_ws t -> Json.int_part (s ++ t) = extend t (Json.int_part s).
Proof.
  intros Ht. destruct s as [| c s].
  - simpl. destruct t as [| c t]; [reflexivity |].
    destruct (all_ws_head _ _ Ht) as [Hc _].
    now destruct (is_ws_cases c Hc) as [-> | [-> | [-> | ->]]].
  - change (String c s ++ t) with (String c (s ++ t)).
    unfold Json.int_part.
    destruct (Ascii.eqb c "0"); [reflexivity |].
    destruct (Num.digit c); [| reflexivity].
    change (String c (s ++ t)) with (String c s ++ t).
    rewrite span_digits_append by assumption.
    now destruct (Json.span_digits (String c s)).
Qed.

Lemma frac_part_append (s t : string) :
  all_ws t ->
  Json.frac_part (s ++ t) = let (f, r) := Json.frac_part s in (f, r ++ t).
Proof.
  intros Ht. destruct s as [| c s].
  - simpl. destruct t as [| c t]; [reflexivity |]. simpl.
    destruct (all_ws_head _ _ Ht) as [Hc _].
    now destruct (is_ws_cases c Hc) as [-> | [-> | [-> | ->]]].
  - change (String c s ++ t) with (String c (s ++ t)).
    unfold Json.frac_part.
    destruct (Ascii.eqb c "."); [| reflexivity].
    rewrite span_digits_append by assumption.
    destruct (Json.span_digits s) as [[| d0 d] r]; reflexivity.
Qed.

Lemma exp_part_append (s t : string) :
  all_ws t ->
  Json.exp_part (s ++ t) = let (f, r) := Json.exp_part s in (f, r ++ t).
Proof.
  intros Ht. destruct s as [| c s].
  - simpl. destruct t as [| c t]; [reflexivity |]. simpl.
    destruct (all_ws_head _ _ Ht) as [Hc _].
    now destruct (is_ws_cases c Hc) as [-> | [-> | [-> | ->]]].
  - change (String c s ++ t) with (String c (s ++ t)).
    unfold Json.exp_part.
    destruct (Ascii.eqb c "e" || Ascii.eqb c "E"); [| reflexivity].
    assert (Hs : (match s ++ t with
                  | String g r' =>
                      if Ascii.eqb g "-" || Ascii.eqb g "+"
                      then (String g "", r') else ("", s ++ t)
                  | EmptyString => ("", s ++ t)
                  end)
                 = (let (sg, r1) :=
                      match s with
                      | String g r' =>
                          if Ascii.eqb g "-" || Ascii.eqb g "+"
                          then (String g "", r') else ("", s)
                      | EmptyString => ("", s)
                      end in (sg, r1 ++ t))).
    { destruct s as [| g s]; simpl.
      - destruct t as [| g t]; [reflexivity |].
        destruct (all_ws_head _ _ Ht) as [Hg _].
        now destruct (is_ws_cases g Hg) as [-> | [-> | [-> | ->]]].
      - now destruct (Ascii.eqb g "-" || Ascii.eqb g "+"). }
    rewrite Hs. clear Hs.
    destruct (match s with
              | String g r' =>
                  if Ascii.eqb g "-" || Ascii.eqb g "+"
                  then (String g "", r') else ("", s)
              | EmptyString => ("", s)
              end) as [sg r1].
    rewrite span_digits_append by assumption.
    destruct (Json.span_digits r1) as [[| d0 d] r]; reflexivity.
Qed.

Lemma match_number_append (s t : string) :
  all_ws t ->
  Json.match_number (s ++ t)
  = match Json.match_number s with
    | Some (i, f, e, r) => Some (i, f, e, r ++ t)
    | None => None
    end.
Proof.
  intros Ht. unfold Json.match_number.
  rewrite minus_part_append by assumption.
  destruct (Json.minus_part s) as [m s1].
  rewrite int_part_append by assumption.
  destruct (Json.int_part s1) as [[i r] |]; simpl; [| reflexivity].
  rewrite frac_part_append by assumption.
  destruct (Json.frac_part r) as [f r1].
  rewrite exp_part_append by assumption.
  now destruct (Json.exp_part r1) as [e r2].
Qed.

Lemma scalar_append (s t : string) :
  all_ws t -> Json.scalar (s ++ t) = extend t (Json.scalar s).
Proof.
  intros Ht. unfold Json.scalar, Json.constant_first, Json.constant_last, Json.number.
  rewrite !after_append by (reflexivity || discriminate || assumption).
  rewrite match_number_append by assumption.
  destruct (Str.after "null" s); [reflexivity |].
  destruct (Str.after "true" s); [reflexivity |].
  destruct (Str.after "false" s); [reflexivity |]. cbn [option_map].
  destruct (Json.match_number s) as [[[[i f] e] r] |].
  - now destruct (Json.number_value i f e).
  - destruct (Str.after "NaN" s); [reflexivity |].
    destruct (Str.after "Infinity" s); [reflexivity |].
    now destruct (Str.after "-Infinity" s).
Qed.

(** ** Strings of JSON *)

(** One step of [scanstring], with the look-ahead written with [four] and
    [low_after]. *)
Lemma scanstring_step (c : ascii) (s : string) :
  Json.scanstring (String c s)
  = if Ascii.eqb c "034" then Some ("", s)
    else if Ascii.eqb c "\" then
      match s with
      | EmptyString => None
      | String e r =>
          if Ascii.eqb e "u" then
            match Json.four r with
            | Some (a, b, x, d, r1) =>
                match Json.hex4 a b x d with
                | None => None
                | Some u =>
                    match Json.low_after u r1 with
                    | Some (u2, r2) =>
                        match Json.scanstring r2 with
                        | Some (t, r3) =>
                            Some (Json.chr (65536 + (u - 55296) * 1024
                                            + (u2 - 56320))%N ++ t, r3)
                        | None => None
                        end
                    | None =>
                        match Json.scanstring r1 with
                        | Some (t, r3) => Some (Json.chr u ++ t, r3)
                        | None => None
                        end
                    end
                end
            | None => None
            end
          else
            match Json.backslash e with
            | Some x =>
                match Json.scanstring r with
                | Some (t, r3) => Some (x ++ t, r3)
                | None => None
                end
            | None => None
            end
      end
    else if (N_of_ascii c <? 32)%N then None
    else
      match Json.scanstring s with
      | Some (t, r3) => Some (String c t, r3)
      | None => None
      end.
Proof.
  cbn [Json.scanstring].
  destruct (Ascii.eqb c "034"); [reflexivity |].
  destruct (Ascii.eqb c "\"); [| reflexivity].
  destruct s as [| e r]; [reflexivity |].
  destruct (Ascii.eqb e "u"); [| reflexivity].
  destruct r as [| a [| b [| x [| d r1]]]]; try reflexivity.
  cbn [Json.four].
  destruct (Json.hex4 a b x d) as [u |]; [| reflexivity].
  destruct r1 as [| e1 [| e2 [| a' [| b' [| x' [| d' r2]]]]]];
    unfold Json.low_after; cbn [Json.four];
    try (destruct (Json.is_high_surrogate u && Ascii.eqb e1 "\" && Ascii.eqb e2 "u");
         reflexivity);
    try reflexivity.
  destruct (Json.is_high_surrogate u && Ascii.eqb e1 "\" && Ascii.eqb e2 "u");
    [| reflexivity].
  destruct (Json.hex4 a' b' x' d') as [u2 |]; [| reflexivity].
  destruct (Json.is_low_surrogate u2); reflexivity.
Qed.

Lemma four_append (r t : string) a b x d r1 :
  Json.four r = Some (a, b, x, d, r1) ->
  Json.four (r ++ t) = Some (a, b, x, d, r1 ++ t)
  /\ (String.length r1 < String.length r)%nat.
Proof.
  destruct r as [| a0 [| b0 [| x0 [| d0 r0]]]]; try discriminate.
  simpl. intros H. injection H as -> -> -> -> ->. split; [reflexivity | lia].
Qed.

Lemma low_after_append (u : N) (r t : string) (u2 : N) (r2 : string) :
  Json.low_after u r = Some (u2, r2) ->
  Json.low_after u (r ++ t) = Some (u2, r2 ++ t)
  /\ (String.length r2 < String.length r)%nat.
Proof.
  destruct r as [| e1 [| e2 r]]; try discriminate.
  change (String e1 (String e2 r) ++ t) with (String e1 (String e2 (r ++ t))).
  unfold Json.low_after.
  destruct (Json.is_high_surrogate u && Ascii.eqb e1 "\" && Ascii.eqb e2 "u");
    [| discriminate].
  destruct (Json.four r) as [[[[[a b] x] d] r0] |] eqn:E; [| discriminate].
  destruct (four_append _ t _ _ _ _ _ E) as [-> Hl].
  destruct (Json.hex4 a b x d) as [v |]; [| discriminate].
  destruct (Json.is_low_surrogate v); [| discriminate].
  intros H. injection H as -> ->. split; [reflexivity |]. simpl. lia.
Qed.

(** Where no low surrogate was found and the string goes on to its end,
    none is found after more text is appended. *)
Lemma low_after_none_append (u : N) (r t : string) :
  Json.low_after u r = None ->
  Json.scanstring r <> None ->
  Json.low_after u (r ++ t) = None.
Proof.
  intros H Hs. destruct r as [| e1 [| e2 r]].
  - now contradiction Hs.
  - rewrite scanstring_step in Hs.
    change (String e1 "" ++ t) with (String e1 t).
    unfold Json.low_after.
    destruct t as [| e2 t]; [reflexivity |].
    destruct (Ascii.eqb_spec e1 "\") as [-> | _].
    + now contradiction Hs.
    + now rewrite andb_false_r.
  - change (String e1 (String e2 r) ++ t) with (String e1 (String e2 (r ++ t))).
    unfold Json.low_after in *.
    destruct (Json.is_high_surrogate u && Ascii.eqb e1 "\" && Ascii.eqb e2 "u") eqn:C;
      [| reflexivity].
    apply andb_true_iff in C. destruct C as [C C2].
    apply andb_true_iff in C. destruct C as [_ C1].
    apply Ascii.eqb_eq in C1, C2. subst e1 e2.
    destruct (Json.four r) as [[[[[a b] x] d] r0] |] eqn:E.
    + destruct (four_append _ t _ _ _ _ _ E) as [-> _].
      destruct (Json.hex4 a b x d) as [v |]; [| reflexivity].
      destruct (Json.is_low_surrogate v); [discriminate | reflexivity].
    + rewrite scanstring_step in Hs. simpl in Hs. rewrite E in Hs.
      now contradiction Hs.
Qed.

Lemma some_pair_inj {A B : Type} (a a' : A) (b b' : B) :
  Some (a, b) = Some (a', b') -> a = a' /\ b = b'.
Proof. intros H. injection H. auto. Qed.

Lemma scanstring_append_bounded (n : nat) :
  forall s t x r,
    (String.length s <= n)%nat ->
    Json.scanstring s = Some (x, r) ->
    Json.scanstring (s ++ t) = Some (x, r ++ t).
Proof.
  induction n as [| n IH]; intros s t x r Hn H.
  - destruct s; [discriminate | simpl in Hn; lia].
  - destruct s as [| c s]; [discriminate |].
    change (String c s ++ t) with (String c (s ++ t)).
    rewrite scanstring_step in *. simpl in Hn.
    destruct (Ascii.eqb c "034").
    { destruct (some_pair_inj _ _ _ _ H) as [<- <-]. reflexivity. }
    destruct (Ascii.eqb c "\").
    { destruct s as [| e s]; [discriminate |].
      change (String e s ++ t) with (String e (s ++ t)). cbv beta iota.
      simpl in Hn.
      destruct (Ascii.eqb e "u").
      - destruct (Json.four s) as [[[[[a b] y] d] r1] |] eqn:E; [| discriminate].
        destruct (four_append _ t _ _ _ _ _ E) as [-> Hl].
        destruct (Json.hex4 a b y d) as [u |]; [| discriminate].
        destruct (Json.low_after u r1) as [[u2 r2] |] eqn:L.
        + destruct (low_after_append _ _ t _ _ L) as [-> Hl2].
          destruct (Json.scanstring r2) as [[w r3] |] eqn:S2; [| discriminate].
          destruct (some_pair_inj _ _ _ _ H) as [<- <-].
          rewrite (IH r2 t w r3) by (lia || assumption). reflexivity.
        + destruct (Json.scanstring r1) as [[w r3] |] eqn:S1; [| discriminate].
          destruct (some_pair_inj _ _ _ _ H) as [<- <-].
          rewrite (low_after_none_append u r1 t L) by (rewrite S1; discriminate).
          rewrite (IH r1 t w r3) by (lia || assumption). reflexivity.
      - destruct (Json.backslash e) as [y |]; [| discriminate].
        destruct (Json.scanstring s) as [[w r3] |] eqn:S1; [| discriminate].
        destruct (some_pair_inj _ _ _ _ H) as [<- <-].
        rewrite (IH s t w r3) by (lia || assumption). reflexivity. }
    destruct (N_of_ascii c <? 32)%N; [discriminate |].
    destruct (Json.scanstring s) as [[w r3] |] eqn:S1; [| discriminate].
    destruct (some_pair_inj _ _ _ _ H) as [<- <-].
    rewrite (IH s t w r3) by (lia || assumption). reflexivity.
Qed.

Lemma scanstring_append (s t x r : string) :
  Json.scanstring s = Some (x, r) ->
  Json.scanstring (s ++ t) = Some (x, r ++ t).
Proof. apply scanstring_append_bounded with (n := String.length s). lia. Qed.

(** ** Values of JSON *)

Lemma scan_once_step (fuel : nat) (c : ascii) (s : string) :
  Json.scan_once (S fuel) (String c s)
  = if Ascii.eqb c "034" then
      match Json.scanstring s with
      | Some (t, r) => Some (PStr t, r)
      | None => None
      end
    else if Ascii.eqb c "{" then
      match Str.after "}" (Json.skip_ws s) with
      | Some r => Some (PDict [], r)
      | None =>
          match Str.after Json.quote (Json.skip_ws s) with
          | Some r =>
              match Json.members fuel [] r with
              | Some (d, r') => Some (PDict d, r')
              | None => None
              end
          | None => None
          end
      end
    else if Ascii.eqb c "[" then
      match Str.after "]" (Json.skip_ws s) with
      | Some r => Some (PList [], r)
      | None =>
          match Json.elements fuel [] (Json.skip_ws s) with
          | Some (l, r') => Some (PList l, r')
          | None => None
          end
      end
    else Json.scalar (String c s).
Proof. reflexivity. Qed.

Lemma members_step (fuel : nat) (acc : list (string * pyval)) (s : string) :
  Json.members (S fuel) acc s
  = match Json.scanstring s with
    | None => None
    | Some (key, r) =>
        match Str.after ":" (Json.skip_ws r) with
        | None => None
        | Some r1 =>
            match Json.scan_once fuel (Json.skip_ws r1) with
            | None => None
            | Some (value, r2) =>
                match Str.after "}" (Json.skip_ws r2) with
                | Some r3 => Some (Json.dict_set acc key value, r3)
                | None =>
                    match Str.after "," (Json.skip_ws r2) with
                    | None => None
                    | Some r3 =>
                        match Str.after Json.quote (Json.skip_ws r3) with
                        | Some r4 =>
                            Json.members fuel (Json.dict_set acc key value) r4
                        | None => None
                        end
                    end
                end
            end
        end
    end.
Proof. reflexivity. Qed.

Lemma elements_step (fuel : nat) (acc : list pyval) (s : string) :
  Json.elements (S fuel) acc s
  = match Json.scan_once fuel s with
    | None => None
    | Some (value, r) =>
        match Str.after "]" (Json.skip_ws r) with
        | Some r1 => Some ((acc ++ [value])%list, r1)
        | None =>
            match Str.after "," (Json.skip_ws r) with
            | Some r1 =>
                Json.elements fuel (acc ++ [value])%list (Json.skip_ws r1)
            | None => None
            end
        end
    end.
Proof. reflexivity. Qed.

Lemma scan_once_empty (fuel : nat) : Json.scan_once fuel "" = None.
Proof. now destruct fuel. Qed.

Lemma elements_empty (fuel : nat) (acc : list pyval) : Json.elements fuel acc "" = None.
Proof.
  destruct fuel; [reflexivity |]. now rewrite elements_step, scan_once_empty.
Qed.

(** A text whose value was read has something after its white space. *)
Lemma skip_ws_append_read {A : Type} (read : string -> option A) (s t : string) :
  read "" = None -> read (Json.skip_ws s) <> None -> all_ws t ->
  Json.skip_ws (s ++ t) = Json.skip_ws s ++ t.
Proof.
  intros H0 H Ht. rewrite skip_ws_append by assumption.
  destruct (Json.skip_ws s); [now contradiction H | reflexivity].
Qed.

Ltac after_append_in_goal :=
  rewrite ?after_skip_ws_append by (reflexivity || discriminate || assumption).

(** Appending white space to a text and adding fuel leave the value read
    as it is, and the white space is appended to the text that is left. *)
Lemma scan_append (fuel : nat) :
  (forall s t v r fuel',
      Json.scan_once fuel s = Some (v, r) -> all_ws t -> (fuel <= fuel')%nat ->
      Json.scan_once fuel' (s ++ t) = Some (v, r ++ t))
  /\ (forall acc s t d r fuel',
         Json.members fuel acc s = Some (d, r) -> all_ws t -> (fuel <= fuel')%nat ->
         Json.members fuel' acc (s ++ t) = Some (d, r ++ t))
  /\ (forall acc s t l r fuel',
         Json.elements fuel acc s = Some (l, r) -> all_ws t -> (fuel <= fuel')%nat ->
         Json.elements fuel' acc (s ++ t) = Some (l, r ++ t)).
Proof.
  induction fuel as [| fuel (IHs & IHm & IHe)].
  { repeat split; intros; discriminate. }
  repeat split.
  - intros s t v r [| fuel'] H Ht Hf; [lia |].
    assert (Hf' : (fuel <= fuel')%nat) by lia.
    destruct s as [| c s]; [discriminate |].
    change (String c s ++ t) with (String c (s ++ t)).
    rewrite scan_once_step in *.
    destruct (Ascii.eqb c "034").
    { destruct (Json.scanstring s) as [[x r0] |] eqn:E; [| discriminate].
      destruct (some_pair_inj _ _ _ _ H) as [<- <-].
      now rewrite (scanstring_append _ t _ _ E). }
    destruct (Ascii.eqb c "{").
    { after_append_in_goal.
      destruct (Str.after "}" (Json.skip_ws s)) as [r0 |]; cbn [option_map].
      { now destruct (some_pair_inj _ _ _ _ H) as [<- <-]. }
      destruct (Str.after Json.quote (Json.skip_ws s)) as [r0 |]; cbn [option_map];
        [| discriminate].
      destruct (Json.members fuel [] r0) as [[d r1] |] eqn:E; [| discriminate].
      destruct (some_pair_inj _ _ _ _ H) as [<- <-].
      now rewrite (IHm _ _ t _ _ fuel' E Ht Hf'). }
    destruct (Ascii.eqb c "[").
    { after_append_in_goal.
      destruct (Str.after "]" (Json.skip_ws s)) as [r0 |]; cbn [option_map].
      { now destruct (some_pair_inj _ _ _ _ H) as [<- <-]. }
      destruct (Json.elements fuel [] (Json.skip_ws s)) as [[l r1] |] eqn:E;
        [| discriminate].
      destruct (some_pair_inj _ _ _ _ H) as [<- <-].
      rewrite (skip_ws_append_read (Json.elements fuel []))
        by (apply elements_empty || (rewrite E; discriminate) || assumption).
      now rewrite (IHe _ _ t _ _ fuel' E Ht Hf'). }
    change (String c (s ++ t)) with (String c s ++ t).
    rewrite scalar_append, H by assumption. reflexivity.
  - intros acc s t d r [| fuel'] H Ht Hf; [lia |].
    assert (Hf' : (fuel <= fuel')%nat) by lia.
    rewrite members_step in *.
    destruct (Json.scanstring s) as [[key r0] |] eqn:E; [| discriminate].
    rewrite (scanstring_append _ t _ _ E).
    after_append_in_goal.
    destruct (Str.after ":" (Json.skip_ws r0)) as [r1 |]; cbn [option_map];
      [| discriminate].
    destruct (Json.scan_once fuel (Json.skip_ws r1)) as [[value r2] |] eqn:E1;
      [| discriminate].
    rewrite (skip_ws_append_read (Json.scan_once fuel))
      by (apply scan_once_empty || (rewrite E1; discriminate) || assumption).
    rewrite (IHs _ t _ _ fuel' E1 Ht Hf').
    after_append_in_goal.
    destruct (Str.after "}" (Json.skip_ws r2)) as [r3 |]; cbn [option_map].
    { now destruct (some_pair_inj _ _ _ _ H) as [<- <-]. }
    destruct (Str.after "," (Json.skip_ws r2)) as [r3 |]; cbn [option_map];
      [| discriminate].
    after_append_in_goal.
    destruct (Str.after Json.quote (Json.skip_ws r3)) as [r4 |]; cbn [option_map];
      [| discriminate].
    exact (IHm _ _ t _ _ fuel' H Ht Hf').
  - intros acc s t l r [| fuel'] H Ht Hf; [lia |].
    assert (Hf' : (fuel <= fuel')%nat) by lia.
    rewrite elements_step in *.
    destruct (Json.scan_once fuel s) as [[value r0] |] eqn:E; [| discriminate].
    rewrite (IHs _ t _ _ fuel' E Ht Hf').
    after_append_in_goal.
    destruct (Str.after "]" (Json.skip_ws r0)) as [r1 |]; cbn [option_map].
    { now destruct (some_pair_inj _ _ _ _ H) as [<- <-]. }
    destruct (Str.after "," (Json.skip_ws r0)) as [r1 |]; cbn [option_map];
      [| discriminate].
    rewrite (skip_ws_append_read (Json.elements fuel (acc ++ [value])%list))
      by (apply elements_empty || (rewrite H; discriminate) || assumption).
    exact (IHe _ _ t _ _ fuel' H Ht Hf').
Qed.

(** [json.loads] does not see white space around a document. *)
Lemma loads_between_white_space (document : string) (v : pyval) (before after : string) :
  Json.loads document = Ok v ->
  all_ws before -> before <> "" -> all_ws after ->
  Json.loads (before ++ document ++ after) = Ok v.
Proof.
  unfold Json.loads. intros H Hb Hne Ha.
  destruct (Str.startswith Json.bom document); [discriminate |].
  assert (Hbom : Str.startswith Json.bom (before ++ document ++ after) = false).
  { destruct before as [| c b]; [congruence |].
    destruct (all_ws_head _ _ Hb) as [Hc _].
    now destruct (is_ws_cases c Hc) as [-> | [-> | [-> | ->]]]. }
  rewrite Hbom.
  assert (Hskip : Json.skip_ws (before ++ document ++ after)
                  = Json.skip_ws (document ++ after)).
  { clear Hne Hbom. induction before as [| c b IH]; [reflexivity |].
    destruct (all_ws_head _ _ Hb) as [Hc Hb']. simpl. rewrite Hc. now apply IH. }
  rewrite Hskip.
  destruct (Json.scan_once (S (String.length document)) (Json.skip_ws document))
    as [[w r] |] eqn:E; [| discriminate].
  rewrite (skip_ws_append_read (Json.scan_once (S (String.length document))))
    by (apply scan_once_empty || (rewrite E; discriminate) || assumption).
  destruct (scan_append (S (String.length document))) as (Hs & _ & _).
  rewrite (Hs _ after _ _ (S (String.length (before ++ document ++ after))) E Ha).
  - rewrite skip_ws_append by assumption.
    destruct (Json.skip_ws r); [exact H | discriminate].
  - rewrite !length_append. lia.
Qed.

(** ** The fuel of the parser *)

Lemma skip_ws_length (s : string) :
  (String.length (Json.skip_ws s) <= String.length s)%nat.
Proof.
  induction s as [| c s IH]; simpl; [lia |].
  destruct (Json.is_ws c); simpl; lia.
Qed.

Lemma after_length (p s r : string) :
  Str.after p s = Some r ->
  String.length s = (String.length p + String.length r)%nat.
Proof.
  revert s. induction p as [| a p IH]; intros s H; simpl in *.
  - now injection H as ->.
  - destruct s as [| b s]; [discriminate |].
    destruct (Ascii.eqb a b); [| discriminate]. simpl. now rewrite (IH s H).
Qed.

Lemma scanstring_length_bounded (n : nat) :
  forall s x r,
    (String.length s <= n)%nat ->
    Json.scanstring s = Some (x, r) ->
    (String.length r < String.length s)%nat.
Proof.
  induction n as [| n IH]; intros s x r Hn H.
  - destruct s; [discriminate | simpl in Hn; lia].
  - destruct s as [| c s]; [discriminate |].
    rewrite scanstring_step in H. simpl in Hn |- *.
    destruct (Ascii.eqb c "034").
    { destruct (some_pair_inj _ _ _ _ H) as [_ <-]. lia. }
    destruct (Ascii.eqb c "\").
    { destruct s as [| e s]; [discriminate |]. simpl in Hn |- *.
      destruct (Ascii.eqb e "u").
      - destruct (Json.four s) as [[[[[a b] y] d] r1] |] eqn:E; [| discriminate].
        destruct (four_append _ "" _ _ _ _ _ E) as [_ Hl].
        destruct (Json.hex4 a b y d) as [u |]; [| discriminate].
        destruct (Json.low_after u r1) as [[u2 r2] |] eqn:L.
        + destruct (low_after_append _ _ "" _ _ L) as [_ Hl2].
          destruct (Json.scanstring r2) as [[w r3] |] eqn:S2; [| discriminate].
          destruct (some_pair_inj _ _ _ _ H) as [_ <-].
          assert ((String.length r3 < String.length r2)%nat)
            by (apply (IH r2 w r3); (lia || assumption)).
          lia.
        + destruct (Json.scanstring r1) as [[w r3] |] eqn:S1; [| discriminate].
          destruct (some_pair_inj _ _ _ _ H) as [_ <-].
          assert ((String.length r3 < String.length r1)%nat)
            by (apply (IH r1 w r3); (lia || assumption)).
          lia.
      - destruct (Json.backslash e) as [y |]; [| discriminate].
        destruct (Json.scanstring s) as [[w r3] |] eqn:S1; [| discriminate].
        destruct (some_pair_inj _ _ _ _ H) as [_ <-].
        assert ((String.length r3 < String.length s)%nat)
          by (apply (IH s w r3); (lia || assumption)).
        lia. }
    destruct (N_of_ascii c <? 32)%N; [discriminate |].
    destruct (Json.scanstring s) as [[w r3] |] eqn:S1; [| discriminate].
    destruct (some_pair_inj _ _ _ _ H) as [_ <-].
    assert ((String.length r3 < String.length s)%nat)
      by (apply (IH s w r3); (lia || assumption)).
    lia.
Qed.

Lemma scanstring_length (s x r : string) :
  Json.scanstring s = Some (x, r) -> (String.length r < String.length s)%nat.
Proof. apply scanstring_length_bounded with (n := String.length s). lia. Qed.

Lemma span_digits_length (s : string) :
  (String.length (snd (Json.span_digits s)) <= String.length s)%nat.
Proof.
  induction s as [| c s IH]; simpl; [lia |].
  destruct (Num.digit c); simpl; [| lia].
  destruct (Json.span_digits s); simpl in *. lia.
Qed.

Lemma match_number_length (s i f e r : string) :
  Json.match_number s = Some (i, f, e, r) ->
  (String.length r < String.length s)%nat.
Proof.
  unfold Json.match_number.
  assert (Hm : (String.length (snd (Json.minus_part s)) <= String.length s)%nat).
  { destruct s as [| c s]; simpl; [lia |]. destruct (Ascii.eqb c "-"); simpl; lia. }
  destruct (Json.minus_part s) as [m s1]. simpl in Hm.
  destruct (Json.int_part s1) as [[i0 r0] |] eqn:Ei; [| discriminate].
  assert (Hi : (String.length r0 < String.length s1)%nat).
  { unfold Json.int_part in Ei. destruct s1 as [| c s1]; [discriminate |].
    destruct (Ascii.eqb c "0").
    - injection Ei as _ <-. simpl. lia.
    - destruct (Num.digit c) eqn:D; [| discriminate].
      injection Ei as Ei. simpl in Ei. rewrite D in Ei.
      pose proof (span_digits_length s1) as Hs.
      destruct (Json.span_digits s1) as [d r1]. injection Ei as _ <-.
      simpl in *. lia. }
  assert (Hf : (String.length (snd (Json.frac_part r0)) <= String.length r0)%nat).
  { unfold Json.frac_part. destruct r0 as [| c r0]; simpl; [lia |].
    destruct (Ascii.eqb c "."); simpl; [| lia].
    pose proof (span_digits_length r0) as Hs.
    destruct (Json.span_digits r0) as [[| d0 d] r1]; simpl in *; lia. }
  destruct (Json.frac_part r0) as [f0 r1]. simpl in Hf.
  assert (He : (String.length (snd (Json.exp_part r1)) <= String.length r1)%nat).
  { unfold Json.exp_part. destruct r1 as [| c r1]; simpl; [lia |].
    destruct (Ascii.eqb c "e" || Ascii.eqb c "E"); simpl; [| lia].
    assert (Hg : (String.length
                    (snd (match r1 with
                          | String g r' =>
                              if Ascii.eqb g "-" || Ascii.eqb g "+"
                              then (String g "", r') else ("", r1)
                          | EmptyString => ("", r1)
                          end)) <= String.length r1)%nat).
    { destruct r1 as [| g r1]; simpl; [lia |].
      destruct (Ascii.eqb g "-" || Ascii.eqb g "+"); simpl; lia. }
    destruct (match r1 with
              | String g r' =>
                  if Ascii.eqb g "-" || Ascii.eqb g "+"
                  then (String g "", r') else ("", r1)
              | EmptyString => ("", r1)
              end) as [sg r2].
    simpl in Hg. pose proof (span_digits_length r2) as Hs.
    destruct (Json.span_digits r2) as [[| d0 d] r3]; simpl in *; lia. }
  destruct (Json.exp_part r1) as [e0 r2]. simpl in He.
  intros H. injection H as _ _ _ <-. lia.
Qed.

Lemma scalar_length (s : string) (v : pyval) (r : string) :
  Json.scalar s = Some (v, r) -> (String.length r < String.length s)%nat.
Proof.
  unfold Json.scalar, Json.constant_first, Json.constant_last, Json.number.
  destruct (Str.after "null" s) eqn:E1.
  { intros H. injection H as _ <-. apply after_length in E1. simpl in E1. lia. }
  destruct (Str.after "true" s) eqn:E2.
  { intros H. injection H as _ <-. apply after_length in E2. simpl in E2. lia. }
  destruct (Str.after "false" s) eqn:E3.
  { intros H. injection H as _ <-. apply after_length in E3. simpl in E3. lia. }
  destruct (Json.match_number s) as [[[[i f] e] r0] |] eqn:En.
  { destruct (Json.number_value i f e); [| discriminate].
    intros H. injection H as _ <-. now apply match_number_length in En. }
  destruct (Str.after "NaN" s) eqn:E4.
  { intros H. injection H as _ <-. apply after_length in E4. simpl in E4. lia. }
  destruct (Str.after "Infinity" s) eqn:E5.
  { intros H. injection H as _ <-. apply after_length in E5. simpl in E5. lia. }
  destruct (Str.after "-Infinity" s) eqn:E6; [| discriminate].
  intros H. injection H as _ <-. apply after_length in E6. simpl in E6. lia.
Qed.

Ltac after_lengths :=
  repeat match goal with
         | H : Str.after _ (Json.skip_ws ?s) = Some _ |- _ =>
             apply after_length in H; pose proof (skip_ws_length s);
             unfold Json.quote in H; simpl in H
         end.

(** Every value that is read takes at least one character. *)
Lemma scan_length (fuel : nat) :
  (forall s v r,
      Json.scan_once fuel s = Some (v, r) ->
      (String.length r < String.length s)%nat)
  /\ (forall acc s d r,
         Json.members fuel acc s = Some (d, r) ->
         (String.length r < String.length s)%nat)
  /\ (forall acc s l r,
         Json.elements fuel acc s = Some (l, r) ->
         (String.length r < String.length s)%nat).
Proof.
  induction fuel as [| fuel (IHs & IHm & IHe)].
  { repeat split; intros; discriminate. }
  repeat split.
  - intros s v r H. destruct s as [| c s]; [discriminate |].
    rewrite scan_once_step in H.
    destruct (Ascii.eqb c "034").
    { destruct (Json.scanstring s) as [[x r0] |] eqn:E; [| discriminate].
      destruct (some_pair_inj _ _ _ _ H) as [_ <-].
      apply scanstring_length in E. simpl. lia. }
    destruct (Ascii.eqb c "{").
    { destruct (Str.after "}" (Json.skip_ws s)) as [r0 |] eqn:E1.
      { destruct (some_pair_inj _ _ _ _ H) as [_ <-]. after_lengths. simpl. lia. }
      destruct (Str.after Json.quote (Json.skip_ws s)) as [r0 |] eqn:E2;
        [| discriminate].
      destruct (Json.members fuel [] r0) as [[d r1] |] eqn:E; [| discriminate].
      destruct (some_pair_inj _ _ _ _ H) as [_ <-].
      apply IHm in E. after_lengths. simpl. lia. }
    destruct (Ascii.eqb c "[").
    { destruct (Str.after "]" (Json.skip_ws s)) as [r0 |] eqn:E1.
      { destruct (some_pair_inj _ _ _ _ H) as [_ <-]. after_lengths. simpl. lia. }
      destruct (Json.elements fuel [] (Json.skip_ws s)) as [[l r1] |] eqn:E;
        [| discriminate].
      destruct (some_pair_inj _ _ _ _ H) as [_ <-].
      apply IHe in E. pose proof (skip_ws_length s). simpl. lia. }
    exact (scalar_length _ _ _ H).
  - intros acc s d r H. rewrite members_step in H.
    destruct (Json.scanstring s) as [[key r0] |] eqn:E; [| discriminate].
    apply scanstring_length in E.
    destruct (Str.after ":" (Json.skip_ws r0)) as [r1 |] eqn:E1; [| discriminate].
    destruct (Json.scan_once fuel (Json.skip_ws r1)) as [[value r2] |] eqn:E2;
      [| discriminate].
    apply IHs in E2. pose proof (skip_ws_length r1).
    destruct (Str.after "}" (Json.skip_ws r2)) as [r3 |] eqn:E3.
    { destruct (some_pair_inj _ _ _ _ H) as [_ <-]. after_lengths. lia. }
    destruct (Str.after "," (Json.skip_ws r2)) as [r3 |] eqn:E4; [| discriminate].
    destruct (Str.after Json.quote (Json.skip_ws r3)) as [r4 |] eqn:E5;
      [| discriminate].
    apply IHm in H. after_lengths. lia.
  - intros acc s l r H. rewrite elements_step in H.
    destruct (Json.scan_once fuel s) as [[value r0] |] eqn:E; [| discriminate].
    apply IHs in E.
    destruct (Str.after "]" (Json.skip_ws r0)) as [r1 |] eqn:E1.
    { destruct (some_pair_inj _ _ _ _ H) as [_ <-]. after_lengths. lia. }
    destruct (Str.after "," (Json.skip_ws r0)) as [r1 |] eqn:E2; [| discriminate].
    apply IHe in H. pose proof (skip_ws_length r1). after_lengths. lia.
Qed.

(** As much fuel as the value takes characters is enough to read it. *)
Lemma scan_fuel (fuel : nat) :
  (forall s v r f,
      Json.scan_once fuel s = Some (v, r) ->
      (String.length s - String.length r <= f)%nat ->
      Json.scan_once f s = Some (v, r))
  /\ (forall acc s d r f,
         Json.members fuel acc s = Some (d, r) ->
         (String.length s - String.length r <= f)%nat ->
         Json.members f acc s = Some (d, r))
  /\ (forall acc s l r f,
         Json.elements fuel acc s = Some (l, r) ->
         (String.length s - String.length r <= f)%nat ->
         Json.elements f acc s = Some (l, r)).
Proof.
  induction fuel as [| fuel (IHs & IHm & IHe)].
  { repeat split; intros; discriminate. }
  destruct (scan_length fuel) as (Ls & Lm & Le).
  destruct (scan_length (S fuel)) as (Ls' & Lm' & Le').
  repeat split.
  - intros s v r f H Hf. pose proof (Ls' _ _ _ H) as Hl.
    destruct f as [| f]; [lia |].
    destruct s as [| c s]; [discriminate |].
    rewrite scan_once_step in *. cbn [String.length] in Hf, Hl.
    destruct (Ascii.eqb c "034"); [exact H |].
    destruct (Ascii.eqb c "{").
    { destruct (Str.after "}" (Json.skip_ws s)) as [r0 |] eqn:E1; [exact H |].
      destruct (Str.after Json.quote (Json.skip_ws s)) as [r0 |] eqn:E2;
        [| discriminate].
      destruct (Json.members fuel [] r0) as [[d r1] |] eqn:E; [| discriminate].
      destruct (some_pair_inj _ _ _ _ H) as [<- <-].
      rewrite (IHm _ _ _ _ f E); [reflexivity |].
      after_lengths. lia. }
    destruct (Ascii.eqb c "[").
    { destruct (Str.after "]" (Json.skip_ws s)) as [r0 |] eqn:E1; [exact H |].
      destruct (Json.elements fuel [] (Json.skip_ws s)) as [[l r1] |] eqn:E;
        [| discriminate].
      destruct (some_pair_inj _ _ _ _ H) as [<- <-].
      rewrite (IHe _ _ _ _ f E); [reflexivity |].
      pose proof (skip_ws_length s). lia. }
    exact H.
  - intros acc s d r f H Hf. pose proof (Lm' _ _ _ _ H) as Hl.
    destruct f as [| f]; [lia |].
    rewrite members_step in *.
    destruct (Json.scanstring s) as [[key r0] |] eqn:E; [| discriminate].
    apply scanstring_length in E.
    destruct (Str.after ":" (Json.skip_ws r0)) as [r1 |] eqn:E1; [| discriminate].
    destruct (Json.scan_once fuel (Json.skip_ws r1)) as [[value r2] |] eqn:E2;
      [| discriminate].
    pose proof (Ls _ _ _ E2) as L2. pose proof (skip_ws_length r1).
    destruct (Str.after "}" (Json.skip_ws r2)) as [r3 |] eqn:E3.
    { destruct (some_pair_inj _ _ _ _ H) as [<- <-].
      rewrite (IHs _ _ _ f E2), E3; [reflexivity |]. after_lengths. lia. }
    destruct (Str.after "," (Json.skip_ws r2)) as [r3 |] eqn:E4; [| discriminate].
    destruct (Str.after Json.quote (Json.skip_ws r3)) as [r4 |] eqn:E5;
      [| discriminate].
    pose proof (Lm _ _ _ _ H) as L4.
    rewrite (IHs _ _ _ f E2), E3, E4, E5; [| after_lengths; lia].
    apply (IHm _ _ _ _ f H). after_lengths. lia.
  - intros acc s l r f H Hf. pose proof (Le' _ _ _ _ H) as Hl.
    destruct f as [| f]; [lia |].
    rewrite elements_step in *.
    destruct (Json.scan_once fuel s) as [[value r0] |] eqn:E; [| discriminate].
    pose proof (Ls _ _ _ E) as L0.
    destruct (Str.after "]" (Json.skip_ws r0)) as [r1 |] eqn:E1.
    { destruct (some_pair_inj _ _ _ _ H) as [<- <-].
      rewrite (IHs _ _ _ f E), E1; [reflexivity |]. after_lengths. lia. }
    destruct (Str.after "," (Json.skip_ws r0)) as [r1 |] eqn:E2; [| discriminate].
    pose proof (Le _ _ _ _ H) as L1. pose proof (skip_ws_length r1).
    rewrite (IHs _ _ _ f E), E1, E2; [| after_lengths; lia].
    apply (IHe _ _ _ _ f H). after_lengths. lia.
Qed.

(** The fuel [json.loads] gives the parser is enough: whatever any amount
    of fuel reads from a text, the fuel of [loads] reads too. *)
Lemma loads_fuel_is_enough (s : string) (fuel : nat) (v : pyval) (r : string) :
  Json.scan_once fuel (Json.skip_ws s) = Some (v, r) ->
  Json.scan_once (S (String.length s)) (Json.skip_ws s) = Some (v, r).
Proof.
  intros H. destruct (scan_fuel fuel) as (Hs & _ & _).
  apply (Hs _ _ _ _ H). pose proof (skip_ws_length s). lia.
Qed.

(** ** [strip] and [replace] *)

Lemma drop_all_none (n : nat) (pats : list string) (s : string) :
  Str.drop_any pats s = None -> Str.drop_all n pats s = s.
Proof. intros H. destruct n; simpl; [reflexivity |]. now rewrite H. Qed.

(** A text between two backquotes has nothing for [strip] to remove. *)
Lemma strip_between_backquotes (s : string) :
  Str.strip (String "`" (s ++ "`")) = String "`" (s ++ "`").
Proof.
  unfold Str.strip, Str.strip_of, Str.lstrip_of.
  rewrite drop_all_none by reflexivity.
  unfold Str.rstrip_of.
  change (String "`" (s ++ "`")) with ("`" ++ s ++ "`") at 2 3.
  rewrite !rev_append.
  change (Str.rev "`") with "`".
  rewrite append_assoc.
  change ("`" ++ Str.rev s ++ "`") with (String "`" (Str.rev s ++ "`")).
  rewrite drop_all_none by reflexivity.
  change (String "`" (Str.rev s ++ "`")) with ("`" ++ Str.rev s ++ "`").
  rewrite <- append_assoc, !rev_append, rev_involutive. reflexivity.
Qed.

Lemma startswith_self (p s : string) : Str.startswith p (p ++ s) = true.
Proof. induction p; simpl; [reflexivity |]. now rewrite Ascii.eqb_refl. Qed.

Lemma replace_from_skip (x old new s : string) :
  Str.replace_from (String.length x) old new (x ++ s) = Str.replace_from O old new s.
Proof. induction x; simpl; auto. Qed.

Lemma replace_prefix (c : ascii) (p new s : string) :
  Str.replace (String c p) new (String c p ++ s)
  = new ++ Str.replace (String c p) new s.
Proof.
  unfold Str.replace.
  change (String c p ++ s) with (String c (p ++ s)).
  cbn [Str.replace_from].
  change (String c (p ++ s)) with (String c p ++ s).
  rewrite startswith_self. cbn [String.length Nat.pred].
  now rewrite replace_from_skip.
Qed.

Lemma replace_no_start (old new a b : string) :
  no_start old a b = true ->
  Str.replace old new (a ++ b) = a ++ Str.replace old new b.
Proof.
  unfold Str.replace. induction a as [| c a IH]; intros H; [reflexivity |].
  cbn [no_start] in H. apply andb_true_iff in H. destruct H as [H1 H2].
  apply negb_true_iff in H1.
  change (String c a ++ b) with (String c (a ++ b)) in *.
  cbn [Str.replace_from]. rewrite H1, (IH H2). reflexivity.
Qed.

Lemma no_start_append (old a e b : string) :
  no_start old (a ++ e) b = no_start old a (e ++ b) && no_start old e b.
Proof.
  induction a as [| c a IH]; [reflexivity |].
  change (String c a ++ e) with (String c (a ++ e)).
  cbn [no_start]. rewrite IH.
  change (String c (a ++ e) ++ b) with (String c ((a ++ e) ++ b)).
  change (String c a ++ e ++ b) with (String c (a ++ e ++ b)).
  now rewrite append_assoc, andb_assoc.
Qed.

(** A character that is not in [p] ends every match of [p]. *)
Lemma startswith_cut (p d : string) (c : ascii) (r : string) :
  has_char c p = false ->
  Str.startswith p (d ++ String c r) = Str.startswith p d.
Proof.
  revert d. induction p as [| a p IH]; intros d H; [reflexivity |].
  cbn [has_char] in H. apply orb_false_iff in H. destruct H as [Ha Hp].
  destruct d as [| b d]; simpl.
  - now rewrite Ha.
  - now rewrite IH.
Qed.

Lemma contains_tail (p : string) (a : ascii) (d : string) :
  Str.contains p (String a d) = false ->
  Str.startswith p (String a d) = false /\ Str.contains p d = false.
Proof. cbn [Str.contains]. intros H. now apply orb_false_iff in H. Qed.

Lemma no_start_document (p d : string) (c : ascii) (r : string) :
  has_char c p = false ->
  Str.contains p d = false ->
  no_start p d (String c r) = true.
Proof.
  intros Hc. induction d as [| a d IH]; intros H; [reflexivity |].
  destruct (contains_tail _ _ _ H) as [H1 H2].
  cbn [no_start]. now rewrite startswith_cut, H1, IH.
Qed.

Lemma startswith_prefix (p q s : string) :
  Str.startswith (p ++ q) s = true -> Str.startswith p s = true.
Proof.
  revert s. induction p as [| a p IH]; intros s; [reflexivity |].
  destruct s as [| b s]; simpl; [discriminate |].
  destruct (Ascii.eqb a b); [apply IH | discriminate].
Qed.

Lemma contains_prefix (p q s : string) :
  Str.contains p s = false -> Str.contains (p ++ q) s = false.
Proof.
  induction s as [| a s IH]; cbn [Str.contains]; intros H;
    apply orb_false_iff in H; destruct H as [H1 H2];
    apply orb_false_iff; (split; [| auto]);
    (destruct (Str.startswith (p ++ q) _) eqn:E; [| reflexivity]);
    apply startswith_prefix in E; congruence.
Qed.

Lemma no_start_between_line_feeds (p document : string) :
  has_char "010" p = false ->
  Str.startswith p (String "010" "") = false ->
  Str.contains p document = false ->
  no_start p (String "010" (document ++ String "010" "")) "```" = true.
Proof.
  intros Hc Hs Hd. cbn [no_start].
  change (String "010" (document ++ String "010" "") ++ "```")
    with ("" ++ String "010" ((document ++ String "010" "") ++ "```")).
  rewrite startswith_cut by assumption.
  rewrite no_start_append.
  change (String "010" "" ++ "```") with (String "010" "```").
  rewrite (no_start_document p document "010" "```") by assumption.
  cbn [no_start].
  change (String "010" "" ++ "```") with ("" ++ String "010" "```").
  rewrite startswith_cut by assumption.
  destruct p; [discriminate | reflexivity].
Qed.

(** The clean-up of a fenced document leaves the document between two line
    feeds. *)
Lemma json_response_fenced (fence document : string) :
  fence = "```json" \/ fence = "```" ->
  Str.contains "```" document = false ->
  json_response (fenced fence document)
  = String "010" (document ++ String "010" "").
Proof.
  intros Hf Hd.
  set (a := String "010" (document ++ String "010" "")).
  assert (H3 : no_start "```" a "```" = true).
  { apply no_start_between_line_feeds; (reflexivity || assumption). }
  assert (H7 : no_start "```json" a "```" = true).
  { apply no_start_between_line_feeds; try reflexivity.
    exact (contains_prefix "```" "json" _ Hd). }
  assert (Hsplit : fenced fence document = fence ++ a ++ "```").
  { unfold fenced, a.
    change line_feed with (String "010" "").
    change (String "010" (document ++ String "010" "") ++ "```")
      with (String "010" ((document ++ String "010" "") ++ "```")).
    now rewrite append_assoc. }
  assert (Hstrip : Str.strip (fenced fence document) = fenced fence document).
  { rewrite Hsplit. destruct Hf as [-> | ->].
    - replace ("```json" ++ a ++ "```")
        with (String "`" (("``json" ++ a ++ "``") ++ "`")).
      + apply strip_between_backquotes.
      + simpl. now rewrite !append_assoc.
    - replace ("```" ++ a ++ "```")
        with (String "`" (("``" ++ a ++ "``") ++ "`")).
      + apply strip_between_backquotes.
      + simpl. now rewrite !append_assoc. }
  unfold json_response. rewrite Hstrip, Hsplit.
  destruct Hf as [-> | ->].
  - rewrite replace_prefix, (replace_no_start "```json" "" a "```" H7).
    change (Str.replace "```json" "" "```") with "```".
    change ("" ++ a ++ "```") with (a ++ "```").
    rewrite (replace_no_start "```" "" a "```" H3).
    change (Str.replace "```" "" "```") with "".
    apply append_empty_r.
  - replace ("```" ++ a ++ "```") with (("```" ++ a) ++ "```")
      by now rewrite append_assoc.
    rewrite (replace_no_start "```json").
    + change (Str.replace "```json" "" "```") with "```".
      rewrite append_assoc, replace_prefix.
      rewrite (replace_no_start "```" "" a "```" H3).
      change (Str.replace "```" "" "```") with "".
      change ("" ++ a ++ "") with (a ++ "").
      apply append_empty_r.
    + rewrite no_start_append, H7. reflexivity.
Qed.

(** ** The Response Normalizer *)

Lemma loads_fenced (fence document : string) (v : pyval) :
  fence = "```json" \/ fence = "```" ->
  Json.loads document = Ok v ->
  Str.contains "```" document = false ->
  Json.loads (json_response (fenced fence document)) = Ok v.
Proof.
  intros Hf Hv Hd. rewrite json_response_fenced by assumption.
  apply (loads_between_white_space document v (String "010" "") (String "010" ""));
    (assumption || reflexivity || discriminate).
Qed.

(** Claim C5, as amended.  The clean-up strips the text and removes every
    occurrence of the two fence markers, wherever it is; the call sites
    return what [json.loads] makes of the result and their fallback when it
    raises.  A valid document that holds no run of three backquotes, set
    between a fence and the closing fence, is returned as the document
    parsed. *)
Theorem normalizer_parses_or_falls_back :
  forall (generate_content : prompt -> result string) (p : prompt) (text : string),
    generate_content p = Ok text ->
    let parsed := Json.loads (json_response text) in
    json_response text = Str.replace "```" "" (Str.replace "```json" "" (Str.strip text))
    /\ (forall mime_type audio_bytes,
          p = TranscriptionPrompt
                (if String.eqb mime_type "" then "audio/webm" else mime_type)
                audio_bytes ->
          transcribe_audio_bytes generate_content mime_type audio_bytes
          = match parsed with
            | Ok v => v
            | Raise _ => default_transcription
            end)
    /\ (forall original_script transcription_data transcription,
          p = FeedbackPrompt original_script transcription ->
          Py.getitem transcription_data "transcription" = Ok transcription ->
          get_feedback_from_gemini generate_content original_script transcription_data
          = Ok match parsed with
               | Ok v => try_except (coerce_and_validate v) feedback_except
               | Raise _ => default_report
               end)
    /\ (forall fence document v,
          text = fenced fence document ->
          fence = "```json" \/ fence = "```" ->
          Json.loads document = Ok v ->
          Str.contains "```" document = false ->
          parsed = Ok v).
Proof.
  intros gc p text Hg parsed. subst parsed.
  split; [reflexivity |]. split; [| split].
  - intros mime audio ->. unfold transcribe_audio_bytes. rewrite Hg. simpl.
    now destruct (Json.loads (json_response text)).
  - intros os td t -> Ht.
    rewrite (get_feedback_unfold gc os td t Ht). f_equal.
    unfold feedback_try. rewrite Hg. simpl.
    destruct (Json.loads (json_response text)) as [v | e]; simpl; [reflexivity |].
    apply feedback_except_default.
  - intros fence document v -> Hf Hv Hd. now apply loads_fenced.
Qed.

Lemma normalizer_parses_or_falls_back_witness :
  transcribe_audio_bytes
    (answers (fenced "```json" (json "{'transcription': [{'timestamp': '00:00-00:05', 'line': 'Hello'}]}")))
    "audio/wav" "RIFF"
  = PDict [("transcription", PList [entry "00:00-00:05" "Hello"])].
Proof.
  destruct (normalizer_parses_or_falls_back
              (answers (fenced "```json" (json "{'transcription': [{'timestamp': '00:00-00:05', 'line': 'Hello'}]}")))
              (TranscriptionPrompt "audio/wav" "RIFF") _ eq_refl) as (_ & H & _ & Hp).
  rewrite (H "audio/wav" "RIFF" eq_refl).
  rewrite (Hp "```json"
             (json "{'transcription': [{'timestamp': '00:00-00:05', 'line': 'Hello'}]}")
             (PDict [("transcription", PList [entry "00:00-00:05" "Hello"])])
             eq_refl (or_introl eq_refl) eq_refl eq_refl).
  reflexivity.
Defined.

(** Claim C5 as stated fails: the document is valid JSON and holds three
    backquotes inside a string; set between code fences, it does not come
    back as the document parsed, because the backquotes inside it are
    removed with the fences. *)
Lemma backquotes_inside_the_document_are_removed :
  Json.loads (json "{'a': '```'}") = Ok (PDict [("a", PStr "```")])
  /\ transcribe_audio_bytes
       (answers (fenced "```json" (json "{'a': '```'}"))) "audio/wav" "RIFF"
     = PDict [("a", PStr "")]
  /\ PDict [("a", PStr "")] <> PDict [("a", PStr "```")].
Proof. repeat split. discriminate. Qed.

(** * Further properties *)

(** ** Dictionaries *)

Lemma dict_get_set_same (d : list (string * pyval)) (k : string) (v : pyval) :
  Json.dict_get (Json.dict_set d k v) k = Some v.
Proof.
  induction d as [| [k' v'] d IH]; simpl.
  - now rewrite String.eqb_refl.
  - destruct (String.eqb k' k) eqn:E; simpl.
    + now rewrite String.eqb_refl.
    + now rewrite E.
Qed.

Lemma dict_get_set_other (d : list (string * pyval)) (k k' : string) (v : pyval) :
  k' <> k -> Json.dict_get (Json.dict_set d k v) k' = Json.dict_get d k'.
Proof.
  intros Hk. induction d as [| [k0 v0] d IH]; simpl.
  - destruct (String.eqb_spec k k'); [congruence | reflexivity].
  - destruct (String.eqb_spec k0 k) as [-> | Hn]; simpl.
    + destruct (String.eqb_spec k k'); [congruence | reflexivity].
    + destruct (String.eqb k0 k'); [reflexivity | exact IH].
Qed.

(** ** Script generation, further *)

(** For a topic that standard output can encode: when the provider's
    answer decodes to a JSON object, [generate_script_from_topic] returns
    that object with the key [title] set to "Presentation on " followed by
    the topic: a title the provider sent is overwritten, and every other
    key keeps its value. *)
Theorem script_title_is_set :
  forall (generate_content : prompt -> result string) (topic : string) (duration : Z)
         (text : string) (d : list (string * pyval)),
    Str.has_surrogate topic = false ->
    generate_content (ScriptPrompt topic duration) = Ok text ->
    Json.loads (json_response text) = Ok (PDict d) ->
    exists data,
      generate_script_from_topic generate_content topic duration = Ok data
      /\ Py.getitem data "title" = Ok (PStr ("Presentation on " ++ topic))
      /\ (forall k, k <> "title" -> Py.getitem data k = Py.getitem (PDict d) k).
Proof.
  intros gc topic duration text d Ht Hg Hl.
  exists (PDict (Json.dict_set d "title" (PStr ("Presentation on " ++ topic)))).
  split; [| split].
  - unfold generate_script_from_topic. rewrite (print_encodable _ Ht). simpl.
    rewrite Hg. simpl. rewrite Hl. reflexivity.
  - unfold Py.getitem. now rewrite dict_get_set_same.
  - intros k Hk. unfold Py.getitem. now rewrite dict_get_set_other.
Qed.

Lemma script_title_is_set_witness :
  exists data,
    generate_script_from_topic
      (answers (json "{'title': 'Mine', 'script': []}")) "Intro to Rust" 5
    = Ok data
    /\ Py.getitem data "title" = Ok (PStr "Presentation on Intro to Rust").
Proof.
  destruct (script_title_is_set
              (answers (json "{'title': 'Mine', 'script': []}"))
              "Intro to Rust" 5 _ _ eq_refl eq_refl eq_refl)
    as (data & H1 & H2 & _).
  exists data. split; [exact H1 | exact H2].
Defined.

(** For a topic that standard output can encode: when the provider's
    answer decodes to a JSON value that is not an object (a list of
    entries, say), the assignment of the title raises and
    [generate_script_from_topic] returns the default script: the decoded
    value is lost. *)
Theorem non_object_script_gives_default :
  forall (generate_content : prompt -> result string) (topic : string) (duration : Z)
         (text : string) (v : pyval),
    Str.has_surrogate topic = false ->
    generate_content (ScriptPrompt topic duration) = Ok text ->
    Json.loads (json_response text) = Ok v ->
    (forall d, v <> PDict d) ->
    generate_script_from_topic generate_content topic duration = Ok default_script.
Proof.
  intros gc topic duration text v Ht Hg Hl Hv.
  unfold generate_script_from_topic. rewrite (print_encodable _ Ht). simpl.
  rewrite Hg. simpl. rewrite Hl. simpl.
  destruct v; try reflexivity. now contradiction (Hv d).
Qed.

Lemma non_object_script_gives_default_witness :
  generate_script_from_topic
    (answers (json "[{'timestamp': '00:00-00:05', 'line': 'Hello'}]")) "Rust" 3
  = Ok default_script.
Proof.
  refine (non_object_script_gives_default
            (answers (json "[{'timestamp': '00:00-00:05', 'line': 'Hello'}]"))
            "Rust" 3 _ _ eq_refl eq_refl eq_refl _).
  intros d H. discriminate H.
Defined.

(** [generate_script_from_topic] raises exactly when standard output
    cannot encode the topic, and then it raises [UnicodeEncodeError],
    whatever the provider would answer.  For every other topic, whatever
    the provider does, it returns an object that has a title, and the
    title is "Default Topic" or "Presentation on " followed by the
    topic. *)
Theorem script_always_has_a_title :
  forall (generate_content : prompt -> result string) (topic : string) (duration : Z),
    let returned := generate_script_from_topic generate_content topic duration in
    if Str.has_surrogate topic then returned = Raise UnicodeEncodeError
    else
      exists data,
        returned = Ok data
        /\ (Py.getitem data "title" = Ok (PStr "Default Topic")
            \/ Py.getitem data "title" = Ok (PStr ("Presentation on " ++ topic))).
Proof.
  intros gc topic duration returned. subst returned.
  unfold generate_script_from_topic.
  destruct (Str.has_surrogate topic) eqn:Ht.
  { now rewrite (print_not_encodable _ Ht). }
  rewrite (print_encodable _ Ht). cbn [bind].
  destruct (gc (ScriptPrompt topic duration)) as [text |]; simpl.
  2: { eexists. split; [reflexivity | left; reflexivity]. }
  destruct (Json.loads (json_response text)) as [v |]; simpl.
  2: { eexists. split; [reflexivity | left; reflexivity]. }
  destruct v; simpl; try (eexists; split; [reflexivity | left; reflexivity]).
  eexists. split; [reflexivity |]. right.
  unfold Py.getitem. now rewrite dict_get_set_same.
Qed.

(** ** The [/analyze] handler, further *)



Lemma upload_mime_type_not_empty (guess_type : string -> option string)
  (audio : UploadFile) :
  upload_mime_type guess_type audio <> "".
Proof.
  unfold upload_mime_type, str_or.
  set (name := match filename audio with Some n => n | None => "" end).
  destruct (content_type audio) as [c |].
  - destruct (String.eqb_spec c "").
    + destruct (guess_type name) as [g |]; [| discriminate].
      destruct (String.eqb_spec g ""); [discriminate | assumption].
    + now rewrite (proj2 (String.eqb_neq c "")).
  - destruct (guess_type name) as [g |]; [| discriminate].
    destruct (String.eqb_spec g ""); [discriminate | assumption].
Qed.

(** The MIME type [api_analyze] hands to the transcription is never empty:
    it is the declared content type when that is not empty, otherwise the
    type guessed from the file name when that is not empty, otherwise
    "audio/webm". *)
Theorem upload_mime_type_cases :
  forall (guess_type : string -> option string) (audio : UploadFile),
    let m := upload_mime_type guess_type audio in
    m <> ""
    /\ (forall c, content_type audio = Some c -> c <> "" -> m = c)
    /\ (content_type audio = None \/ content_type audio = Some "" ->
        forall g,
          guess_type (match filename audio with Some n => n | None => "" end) = Some g ->
          g <> "" -> m = g)
    /\ (content_type audio = None \/ content_type audio = Some "" ->
        guess_type (match filename audio with Some n => n | None => "" end) = None
        \/ guess_type (match filename audio with Some n => n | None => "" end) = Some "" ->
        m = "audio/webm").
Proof.
  intros gt audio m. subst m.
  split; [apply upload_mime_type_not_empty |].
  unfold upload_mime_type, str_or.
  set (name := match filename audio with Some n => n | None => "" end).
  repeat split.
  - intros c -> Hc. now rewrite !(proj2 (String.eqb_neq c "") Hc).
  - intros [-> | ->] g -> Hg; simpl; now rewrite !(proj2 (String.eqb_neq g "") Hg).
  - intros [-> | ->] [-> | ->]; reflexivity.
Qed.

Lemma upload_mime_type_cases_witness :
  upload_mime_type (fun _ => Some "audio/mpeg")
    {| content_type := Some ""; filename := Some "talk.mp3"; content := "ID3" |}
  = "audio/mpeg".
Proof.
  refine (proj1 (proj2 (proj2 (upload_mime_type_cases (fun _ => Some "audio/mpeg")
            {| content_type := Some ""; filename := Some "talk.mp3"; content := "ID3" |})))
            (or_intror eq_refl) "audio/mpeg" eq_refl _).
  discriminate.
Defined.

Lemma transcribe_with_type (gc : prompt -> result string) (m a : string) :
  m <> "" ->
  transcribe_audio_bytes gc m a
  = try_except
      (text <- gc (TranscriptionPrompt m a) ;; Json.loads (json_response text))
      (fun _ => default_transcription).
Proof.
  intros Hm. unfold transcribe_audio_bytes.
  rewrite (proj2 (String.eqb_neq m "") Hm).
  destruct (gc (TranscriptionPrompt m a)) as [text |]; simpl; [| reflexivity].
  now destruct (Json.loads (json_response text)).
Qed.

(** When the transcription call fails, or answers with text that is not
    JSON, [api_analyze] raises neither [KeyError] nor [TypeError]: the
    fallback transcription has the key [transcription], the feedback is
    asked for with its two entries, and the handler ends with the
    serialization of the report, which is all that can still raise; when
    the feedback call fails as well, the default report is returned as
    JSON. *)
Theorem analyze_survives_failed_transcription :
  forall (generate_content : prompt -> result string)
         (guess_type : string -> option string) (fs : filesystem)
         (audio : UploadFile) (original_script_json : string),
    let p := TranscriptionPrompt (upload_mime_type guess_type audio) (content audio) in
    (exists e, generate_content p = Raise e)
    \/ (exists text e,
          generate_content p = Ok text /\ Json.loads (json_response text) = Raise e) ->
    let returned :=
      snd (api_analyze generate_content guess_type fs audio original_script_json) in
    exists transcription,
      let feedback :=
        feedback_try generate_content
          (FeedbackPrompt (parse_original_script original_script_json) transcription) in
      Py.getitem default_transcription "transcription" = Ok transcription
      /\ returned
         = Pydantic.model_dump_json_loads (try_except feedback feedback_except)
      /\ (forall e, returned = Raise e -> e = SerializationError)
      /\ (forall e, feedback = Raise e ->
            returned = Pydantic.model_dump_json_loads default_report
            /\ exists content, returned = Ok content).
Proof.
  intros gc gt fs audio s p H returned.
  assert (E : transcribe_audio_bytes gc (upload_mime_type gt audio) (content audio)
              = default_transcription).
  { rewrite transcribe_with_type by apply upload_mime_type_not_empty.
    fold p. destruct H as [(e & ->) | (text & e & -> & H)]; simpl; [reflexivity |].
    now rewrite H. }
  eexists. cbv zeta. split; [reflexivity |].
  assert (R : returned
              = Pydantic.model_dump_json_loads
                  (try_except
                     (feedback_try gc
                        (FeedbackPrompt (parse_original_script s)
                           (PList [entry "00:00-00:05" "Audio transcription failed.";
                                   entry "00:06-00:11"
                                     "Please check the audio file format and your API setup."])))
                     feedback_except)).
  { subst returned. unfold api_analyze. cbn [snd]. rewrite E. reflexivity. }
  split; [exact R |]. split.
  - intros e. rewrite R. unfold Pydantic.model_dump_json_loads.
    destruct (existsb _ _); [| discriminate].
    intros He. now injection He as <-.
  - intros e He. rewrite R, He. cbn [try_except].
    rewrite feedback_except_default. split; [reflexivity |].
    eexists. reflexivity.
Qed.

Lemma analyze_survives_failed_transcription_witness :
  snd (api_analyze unreachable no_guess {| speech_wav := None; disk := OpenFails |}
         {| content_type := Some "audio/wav"; filename := None; content := "RIFF" |}
         (json "[{'timestamp': '00:00-00:05', 'line': 'Hello'}]"))
  = Pydantic.model_dump_json_loads default_report.
Proof.
  destruct (analyze_survives_failed_transcription unreachable no_guess
              {| speech_wav := None; disk := OpenFails |}
              {| content_type := Some "audio/wav"; filename := None; content := "RIFF" |}
              (json "[{'timestamp': '00:00-00:05', 'line': 'Hello'}]")
              (or_introl (ex_intro _ APIError eq_refl))) as (t & Ht & H & _).
  rewrite H. reflexivity.
Defined.

(** ** Preflight requests, further *)

(** Whatever header [Access-Control-Allow-Origin] an [OPTIONS] request is
    answered with, by the middleware or by the route, it names an origin of
    the allow-list: an origin outside the list is never echoed, and the
    wildcard is never sent. *)
Theorem preflight_origin_is_allow_listed :
  forall (request : Request) (r : Response) (o : string),
    r = http_options_generate_script request \/ r = http_options_analyze request ->
    header r "Access-Control-Allow-Origin" = Some o ->
    In o ALLOWED_ORIGINS /\ o <> "*".
Proof.
  intros request r o Hr Ho.
  assert (E : r = CORSMiddleware.options preflight request)
    by (destruct Hr; assumption).
  assert (Hin : In o ALLOWED_ORIGINS).
  { pose proof (cors_options_answer request) as H. rewrite <- E in H.
    unfold options_answer in H.
    assert (D : forall origin,
               header r "Access-Control-Allow-Origin" = Some (spec_allow_origin origin) ->
               In o ALLOWED_ORIGINS).
    { intros origin Hs. rewrite Ho in Hs. injection Hs as ->.
      unfold spec_allow_origin. destruct origin as [o' |]; [| simpl; auto].
      destruct (str_in o' ALLOWED_ORIGINS) eqn:C; [| simpl; auto].
      now apply str_in_In. }
    destruct (origin_of request) as [o' |].
    - destruct (requested_method_of request).
      + destruct H as (_ & H & _). rewrite Ho in H.
        destruct (str_in o' ALLOWED_ORIGINS) eqn:C; [| discriminate].
        injection H as ->. now apply str_in_In.
      + destruct H as (_ & H & _). exact (D _ H).
    - destruct (requested_method_of request);
        destruct H as (_ & H & _); exact (D _ H). }
  split; [exact Hin |].
  intros ->. apply str_in_In in Hin. vm_compute in Hin. discriminate.
Qed.

Lemma preflight_origin_is_allow_listed_witness :
  header (http_options_generate_script listed_preflight) "Access-Control-Allow-Origin"
  = Some "http://localhost:5173"
  /\ In "http://localhost:5173" ALLOWED_ORIGINS.
Proof.
  split; [reflexivity |].
  exact (proj1 (preflight_origin_is_allow_listed listed_preflight _
                  "http://localhost:5173" (or_introl eq_refl) eq_refl)).
Defined.

(** ** The Report Coercer, further *)

Lemma coerce_dict_inv (d : list (string * pyval)) (c : coerced_dict) :
  coerce (PDict d) = Ok c ->
  policy_score d "score" = Ok (co_score c)
  /\ policy_score d "word_repetition_score" = Ok (co_word_repetition_score c)
  /\ policy_count d "word_repetition_count" = Ok (co_word_repetition_count c)
  /\ policy_score d "speaking_pace_score" = Ok (co_speaking_pace_score c)
  /\ policy_count d "speaking_pace_count" = Ok (co_speaking_pace_count c)
  /\ policy_score d "filler_words_score" = Ok (co_filler_words_score c)
  /\ policy_score d "voice_clarity_score" = Ok (co_voice_clarity_score c)
  /\ policy_count d "filler_words_count" = Ok (co_filler_words_count c)
  /\ co_overall_feedback c = policy_text d "overall_feedback"
  /\ co_repetitive_words_list c = policy_list d "repetitive_words_list"
  /\ co_detailed_tips c = policy_list d "detailed_tips".
Proof.
  unfold coerce.
  rewrite !score_entry_policy, !count_entry_policy, text_entry_policy.
  destruct (list_entry_policy d "repetitive_words_list") as (w & Hw & Ew).
  destruct (list_entry_policy d "detailed_tips") as (t & Ht & Et).
  rewrite Hw, Ht, <- Ew, <- Et.
  destruct (policy_score d "score"); simpl; [| discriminate].
  destruct (policy_score d "word_repetition_score"); simpl; [| discriminate].
  destruct (policy_count d "word_repetition_count"); simpl; [| discriminate].
  destruct (policy_score d "speaking_pace_score"); simpl; [| discriminate].
  destruct (policy_count d "speaking_pace_count"); simpl; [| discriminate].
  destruct (policy_score d "filler_words_score"); simpl; [| discriminate].
  destruct (policy_score d "voice_clarity_score"); simpl; [| discriminate].
  destruct (policy_count d "filler_words_count"); simpl; [| discriminate].
  intros H. injection H as <-. simpl. repeat split.
Qed.

Lemma coerce_dict_ok (d : list (string * pyval))
  (s wrs sps fws vcs : spec_float) (wrc spc fwc : Z) :
  policy_score d "score" = Ok s ->
  policy_score d "word_repetition_score" = Ok wrs ->
  policy_count d "word_repetition_count" = Ok wrc ->
  policy_score d "speaking_pace_score" = Ok sps ->
  policy_count d "speaking_pace_count" = Ok spc ->
  policy_score d "filler_words_score" = Ok fws ->
  policy_score d "voice_clarity_score" = Ok vcs ->
  policy_count d "filler_words_count" = Ok fwc ->
  coerce (PDict d)
  = Ok {| co_score := s;
          co_overall_feedback := policy_text d "overall_feedback";
          co_word_repetition_score := wrs;
          co_word_repetition_count := wrc;
          co_speaking_pace_score := sps;
          co_speaking_pace_count := spc;
          co_filler_words_score := fws;
          co_voice_clarity_score := vcs;
          co_filler_words_count := fwc;
          co_repetitive_words_list := policy_list d "repetitive_words_list";
          co_detailed_tips := policy_list d "detailed_tips" |}.
Proof.
  intros H1 H2 H3 H4 H5 H6 H7 H8. unfold coerce.
  rewrite !score_entry_policy, !count_entry_policy, text_entry_policy.
  destruct (list_entry_policy d "repetitive_words_list") as (w & Hw & Ew).
  destruct (list_entry_policy d "detailed_tips") as (t & Ht & Et).
  rewrite Hw, Ht, <- Ew, <- Et, H1, H2, H3, H4, H5, H6, H7, H8. reflexivity.
Qed.

Lemma validate_FeedbackReport_inv (c : coerced_dict) (r : FeedbackReport) :
  Pydantic.validate_FeedbackReport c = Ok r ->
  Pydantic.validate_str (co_overall_feedback c) = Ok (overall_feedback r)
  /\ Pydantic.validate_list Pydantic.validate_str (co_repetitive_words_list c)
     = Ok (repetitive_words_list r)
  /\ Pydantic.validate_list Pydantic.validate_DetailedTip (co_detailed_tips c)
     = Ok (detailed_tips r).
Proof.
  unfold Pydantic.validate_FeedbackReport.
  destruct (Pydantic.validate_str _) as [f |]; simpl; [| discriminate].
  destruct (Pydantic.validate_list Pydantic.validate_str _) as [w |]; simpl;
    [| discriminate].
  destruct (Pydantic.validate_list Pydantic.validate_DetailedTip _) as [t |]; simpl;
    [| discriminate].
  intros H. injection H as <-. simpl. repeat split.
Qed.

Lemma coerce_and_validate_inv (d : list (string * pyval)) (r : FeedbackReport) :
  coerce_and_validate (PDict d) = Ok r ->
  exists c, coerce (PDict d) = Ok c /\ Pydantic.validate_FeedbackReport c = Ok r.
Proof.
  unfold coerce_and_validate.
  destruct (coerce (PDict d)) as [c |]; simpl; [| discriminate].
  intros H. now exists c.
Qed.

Lemma policy_list_is_list (d : list (string * pyval)) (k : string) :
  policy_list d k
  = PList match Json.dict_get d k with
          | Some (PList l) => l
          | _ => []
          end.
Proof.
  unfold policy_list. destruct (Json.dict_get d k) as [v |]; [| reflexivity].
  destruct v; reflexivity.
Qed.

Lemma validate_items_Forall2 {A : Type} (item : pyval -> result A)
  (R : pyval -> A -> Prop) :
  (forall v x, item v = Ok x -> R v x) ->
  forall l xs, Pydantic.validate_items item l = Ok xs -> Forall2 R l xs.
Proof.
  intros HR. induction l as [| v l IH]; simpl; intros xs H.
  - injection H as <-. constructor.
  - destruct (item v) as [x |] eqn:Ex; simpl in H; [| discriminate].
    destruct (Pydantic.validate_items item l) as [ys |]; simpl in H; [| discriminate].
    injection H as <-. constructor; auto.
Qed.

Lemma validate_DetailedTip_tip_of (v : pyval) (t : DetailedTip) :
  Pydantic.validate_DetailedTip v = Ok t -> tip_of v t.
Proof.
  destruct v; simpl; try discriminate. unfold Pydantic.field.
  destruct (Json.dict_get d "original_timestamp") as [vo |] eqn:Do; simpl;
    [| discriminate].
  destruct (Pydantic.validate_str vo) as [o |] eqn:Eo; simpl; [| discriminate].
  destruct (Json.dict_get d "transcribed_timestamp") as [vs |] eqn:Ds; simpl;
    [| discriminate].
  destruct (Pydantic.validate_str vs) as [s |] eqn:Es; simpl; [| discriminate].
  destruct (Json.dict_get d "suggestion") as [vg |] eqn:Dg; simpl; [| discriminate].
  destruct (Pydantic.validate_str vg) as [g |] eqn:Eg; simpl; [| discriminate].
  intros H. injection H as <-.
  apply validate_str_inv in Eo, Es, Eg. subst vo vs vg.
  exists d. simpl. repeat split; assumption || reflexivity.
Qed.

(** In a report built from a JSON object, [overall_feedback] is the string
    the object holds under that key, and the empty string when the key is
    absent or holds a falsy value.  A truthy value that is not a string (a
    number, a list, an object) is not converted: then no report is built
    from the object. *)
Theorem overall_feedback_is_the_upstream_string :
  forall (d : list (string * pyval)) (r : FeedbackReport),
    coerce_and_validate (PDict d) = Ok r ->
    overall_feedback r
    = match Json.dict_get d "overall_feedback" with
      | Some (PStr s) => s
      | _ => ""
      end
    /\ (forall v, Json.dict_get d "overall_feedback" = Some v ->
                  Py.truthy v = true -> exists s, v = PStr s).
Proof.
  intros d r H.
  destruct (coerce_and_validate_inv _ _ H) as (c & Hc & Hv).
  destruct (coerce_dict_inv _ _ Hc) as (_ & _ & _ & _ & _ & _ & _ & _ & Eo & _ & _).
  destruct (validate_FeedbackReport_inv _ _ Hv) as (Ho & _ & _).
  rewrite Eo in Ho. apply validate_str_inv in Ho.
  unfold policy_text in Ho.
  destruct (Json.dict_get d "overall_feedback") as [v |].
  - destruct (Py.truthy v) eqn:T.
    + subst v. split; [reflexivity |]. intros v E _. injection E as <-. eauto.
    + injection Ho as <-. split; [| intros v' E T'; congruence].
      destruct v; try reflexivity. simpl in T.
      destruct (String.eqb_spec s ""); [now subst | discriminate].
  - injection Ho as <-. split; [reflexivity | discriminate].
Qed.

Lemma overall_feedback_is_the_upstream_string_witness :
  overall_feedback
    {| score := Float.zero; overall_feedback := "Well done";
       word_repetition_score := Float.zero; word_repetition_count := 0;
       speaking_pace_score := Float.zero; speaking_pace_count := 0;
       filler_words_score := Float.zero; voice_clarity_score := Float.zero;
       filler_words_count := 0; repetitive_words_list := []; detailed_tips := [] |}
  = "Well done".
Proof.
  exact (proj1 (overall_feedback_is_the_upstream_string
                  [("overall_feedback", PStr "Well done"); ("score", PNone)]
                  _ eq_refl)).
Defined.

(** In a report built from a JSON object, [repetitive_words_list] holds the
    elements of the list the object gives, in their order, and each of them
    is a string; when the key is absent or holds anything but a list (a
    single word as a string, say), the list is empty. *)
Theorem repetitive_words_are_the_upstream_list :
  forall (d : list (string * pyval)) (r : FeedbackReport),
    coerce_and_validate (PDict d) = Ok r ->
    map PStr (repetitive_words_list r)
    = match Json.dict_get d "repetitive_words_list" with
      | Some (PList l) => l
      | _ => []
      end.
Proof.
  intros d r H.
  destruct (coerce_and_validate_inv _ _ H) as (c & Hc & Hv).
  destruct (coerce_dict_inv _ _ Hc) as (_ & _ & _ & _ & _ & _ & _ & _ & _ & Ew & _).
  destruct (validate_FeedbackReport_inv _ _ Hv) as (_ & Hw & _).
  rewrite Ew, policy_list_is_list in Hw. simpl in Hw.
  set (l := match Json.dict_get d "repetitive_words_list" with
            | Some (PList l) => l
            | _ => []
            end) in *.
  clearbody l. clear - Hw. revert Hw. generalize (repetitive_words_list r).
  induction l as [| v l IH]; simpl; intros ws Hw.
  - now injection Hw as <-.
  - destruct (Pydantic.validate_str v) as [x |] eqn:Ex; simpl in Hw; [| discriminate].
    destruct (Pydantic.validate_items Pydantic.validate_str l) as [ys |] eqn:Ey;
      simpl in Hw; [| discriminate].
    injection Hw as <-. simpl. apply validate_str_inv in Ex. subst.
    f_equal. now apply IH.
Qed.

Lemma repetitive_words_are_the_upstream_list_witness :
  map PStr
    (repetitive_words_list
       {| score := Float.zero; overall_feedback := "";
          word_repetition_score := Float.zero; word_repetition_count := 0;
          speaking_pace_score := Float.zero; speaking_pace_count := 0;
          filler_words_score := Float.zero; voice_clarity_score := Float.zero;
          filler_words_count := 0; repetitive_words_list := ["um"; "like"; "um"];
          detailed_tips := [] |})
  = [PStr "um"; PStr "like"; PStr "um"].
Proof.
  exact (repetitive_words_are_the_upstream_list
           [("repetitive_words_list", PList [PStr "um"; PStr "like"; PStr "um"])]
           _ eq_refl).
Defined.

(** In a report built from a JSON object, [detailed_tips] has one tip for
    each element of the list the object gives, in the same order; each
    element is an object that holds the three fields of its tip as strings
    (its other keys are ignored).  When the key is absent or holds anything
    but a list, there are no tips. *)
Theorem detailed_tips_follow_the_upstream_list :
  forall (d : list (string * pyval)) (r : FeedbackReport),
    coerce_and_validate (PDict d) = Ok r ->
    Forall2 tip_of
      match Json.dict_get d "detailed_tips" with
      | Some (PList l) => l
      | _ => []
      end
      (detailed_tips r).
Proof.
  intros d r H.
  destruct (coerce_and_validate_inv _ _ H) as (c & Hc & Hv).
  destruct (coerce_dict_inv _ _ Hc) as (_ & _ & _ & _ & _ & _ & _ & _ & _ & _ & Et).
  destruct (validate_FeedbackReport_inv _ _ Hv) as (_ & _ & Ht).
  rewrite Et, policy_list_is_list in Ht. simpl in Ht.
  exact (validate_items_Forall2 _ tip_of validate_DetailedTip_tip_of _ _ Ht).
Qed.

Lemma detailed_tips_follow_the_upstream_list_witness :
  Forall2 tip_of
    [PDict [("suggestion", PStr "Slow down"); ("original_timestamp", PStr "00:00-00:05");
            ("transcribed_timestamp", PStr "N/A"); ("confidence", PInt 3)]]
    [{| original_timestamp := "00:00-00:05"; transcribed_timestamp := "N/A";
        suggestion := "Slow down" |}].
Proof.
  exact (detailed_tips_follow_the_upstream_list
           [("detailed_tips",
             PList [PDict [("suggestion", PStr "Slow down");
                           ("original_timestamp", PStr "00:00-00:05");
                           ("transcribed_timestamp", PStr "N/A");
                           ("confidence", PInt 3)]])]
           _ eq_refl).
Defined.

Lemma policy_score_truthy (d : list (string * pyval)) (k : string) (v : pyval) :
  Json.dict_get d k = Some v -> Py.truthy v = true -> policy_score d k = Py.float v.
Proof. unfold policy_score. now intros -> ->. Qed.

Lemma policy_count_truthy (d : list (string * pyval)) (k : string) (v : pyval) :
  Json.dict_get d k = Some v -> Py.truthy v = true -> policy_count d k = Py.int v.
Proof. unfold policy_count. now intros -> ->. Qed.

Lemma coerce_raises_on_bad_number (d : list (string * pyval)) (k : string)
  (v : pyval) (e : exn) :
  Json.dict_get d k = Some v ->
  Py.truthy v = true ->
  (In k score_keys /\ Py.float v = Raise e) \/ (In k count_keys /\ Py.int v = Raise e) ->
  exists e', coerce (PDict d) = Raise e'.
Proof.
  intros Hk Ht H.
  destruct (coerce (PDict d)) as [c |] eqn:E; [| eauto].
  exfalso.
  destruct (coerce_dict_inv _ _ E) as (H1 & H2 & H3 & H4 & H5 & H6 & H7 & H8 & _).
  destruct H as [[Hin Hf] | [Hin Hi]].
  - pose proof (policy_score_truthy d k v Hk Ht) as P. rewrite Hf in P.
    simpl in Hin.
    repeat (destruct Hin as [<- | Hin]; [congruence |]). exact Hin.
  - pose proof (policy_count_truthy d k v Hk Ht) as P. rewrite Hi in P.
    simpl in Hin.
    repeat (destruct Hin as [<- | Hin]; [congruence |]). exact Hin.
Qed.

(** One bad number discards the whole report: when a score or a count of
    the feedback object holds a truthy value that [float] or [int] refuses
    (text that is no number, a list, NaN or an infinity as a count), no
    field of the object is used and [get_feedback_from_gemini] returns the
    default report. *)
Theorem one_bad_number_gives_default :
  forall (generate_content : prompt -> result string)
         (original_script transcription_data transcription : pyval)
         (text : string) (d : list (string * pyval)) (k : string) (v : pyval) (e : exn),
    Py.getitem transcription_data "transcription" = Ok transcription ->
    generate_content (FeedbackPrompt original_script transcription) = Ok text ->
    Json.loads (json_response text) = Ok (PDict d) ->
    Json.dict_get d k = Some v ->
    Py.truthy v = true ->
    (In k score_keys /\ Py.float v = Raise e) \/ (In k count_keys /\ Py.int v = Raise e) ->
    get_feedback_from_gemini generate_content original_script transcription_data
    = Ok default_report.
Proof.
  intros gc os td t text d k v e Ht Hg Hl Hk Hv H.
  destruct (coerce_raises_on_bad_number d k v e Hk Hv H) as (e' & Hc).
  apply get_feedback_raise with (transcription := t) (e := e'); [assumption |].
  unfold feedback_try, coerce_and_validate.
  rewrite Hg. simpl. rewrite Hl. simpl. now rewrite Hc.
Qed.

Lemma one_bad_number_gives_default_witness :
  get_feedback_from_gemini
    (answers (json "{'score': 8, 'overall_feedback': 'Good', 'filler_words_count': NaN}"))
    (PList []) empty_transcription
  = Ok default_report.
Proof.
  refine (one_bad_number_gives_default
            (answers (json "{'score': 8, 'overall_feedback': 'Good', 'filler_words_count': NaN}"))
            (PList []) empty_transcription (PList []) _ _
            "filler_words_count" (PFloat S754_nan) ValueError
            eq_refl eq_refl eq_refl eq_refl eq_refl _).
  right. split; [| reflexivity]. simpl. auto.
Defined.

Lemma small_int_score_in_range (n : Z) :
  0 < n <= 10 ->
  exists f, Float.of_int n = Ok f /\ score_in_range f = true.
Proof.
  intros H.
  assert (C : n = 1 \/ n = 2 \/ n = 3 \/ n = 4 \/ n = 5 \/ n = 6 \/ n = 7
              \/ n = 8 \/ n = 9 \/ n = 10) by lia.
  repeat (destruct C as [-> | C]; [eexists; split; reflexivity |]).
  subst n. eexists; split; reflexivity.
Qed.

Lemma policy_score_in_range (d : list (string * pyval)) (k : string) :
  score_value_in_range (Json.dict_get d k) ->
  exists f, policy_score d k = Ok f /\ score_in_range f = true.
Proof.
  unfold policy_score, score_value_in_range.
  destruct (Json.dict_get d k) as [v |]; [| intros _; eexists; split; reflexivity].
  destruct v as [| b | n | f | s | l | m]; try contradiction.
  - intros _. eexists; split; reflexivity.
  - intros H. simpl. destruct (Z.eqb_spec n 0) as [-> | Hn]; simpl.
    + eexists; split; reflexivity.
    + apply small_int_score_in_range. lia.
  - intros H. simpl. destruct (Float.is_zero f); simpl.
    + eexists; split; reflexivity.
    + eauto.
Qed.

Lemma policy_count_in_range (d : list (string * pyval)) (k : string) :
  count_value_in_range (Json.dict_get d k) ->
  exists n, policy_count d k = Ok n /\ count_in_range n = true.
Proof.
  unfold policy_count, count_value_in_range, count_in_range.
  destruct (Json.dict_get d k) as [v |]; [| intros _; eexists; split; reflexivity].
  destruct v as [| b | n | f | s | l | m]; try contradiction.
  - intros _. eexists; split; reflexivity.
  - intros H. simpl. destruct (Z.eqb_spec n 0) as [-> | Hn]; simpl.
    + eexists; split; reflexivity.
    + exists n. split; [reflexivity |]. now apply Z.leb_le.
Qed.

(** The coercion keeps the ranges of the data model when the provider
    respects them: if every score of the feedback object is absent, [null]
    or a number from 0 to 10, and every count is absent, [null] or a
    non-negative integer, then no cast raises and every report built from
    the object has its scores from 0 to 10 and its counts non-negative. *)
Theorem in_range_values_stay_in_range :
  forall d : list (string * pyval),
    (forall k, In k score_keys -> score_value_in_range (Json.dict_get d k)) ->
    (forall k, In k count_keys -> count_value_in_range (Json.dict_get d k)) ->
    (exists c, coerce (PDict d) = Ok c /\ coerced_in_range c = true)
    /\ (forall r, coerce_and_validate (PDict d) = Ok r -> report_in_range r = true).
Proof.
  intros d Hs Hc.
  assert (Hs' : forall k, In k score_keys ->
                  exists f, policy_score d k = Ok f /\ score_in_range f = true).
  { intros k Hk. apply policy_score_in_range. auto. }
  assert (Hc' : forall k, In k count_keys ->
                  exists n, policy_count d k = Ok n /\ count_in_range n = true).
  { intros k Hk. apply policy_count_in_range. auto. }
  destruct (Hs' "score") as (s & E1 & R1); [simpl; tauto |].
  destruct (Hs' "word_repetition_score") as (wrs & E2 & R2); [simpl; tauto |].
  destruct (Hc' "word_repetition_count") as (wrc & E3 & R3); [simpl; tauto |].
  destruct (Hs' "speaking_pace_score") as (sps & E4 & R4); [simpl; tauto |].
  destruct (Hc' "speaking_pace_count") as (spc & E5 & R5); [simpl; tauto |].
  destruct (Hs' "filler_words_score") as (fws & E6 & R6); [simpl; tauto |].
  destruct (Hs' "voice_clarity_score") as (vcs & E7 & R7); [simpl; tauto |].
  destruct (Hc' "filler_words_count") as (fwc & E8 & R8); [simpl; tauto |].
  pose proof (coerce_dict_ok d _ _ _ _ _ _ _ _ E1 E2 E3 E4 E5 E6 E7 E8) as E.
  assert (R : coerced_in_range
                {| co_score := s;
                   co_overall_feedback := policy_text d "overall_feedback";
                   co_word_repetition_score := wrs;
                   co_word_repetition_count := wrc;
                   co_speaking_pace_score := sps;
                   co_speaking_pace_count := spc;
                   co_filler_words_score := fws;
                   co_voice_clarity_score := vcs;
                   co_filler_words_count := fwc;
                   co_repetitive_words_list := policy_list d "repetitive_words_list";
                   co_detailed_tips := policy_list d "detailed_tips" |} = true).
  { unfold coerced_in_range. cbn [co_score co_word_repetition_score
      co_speaking_pace_score co_filler_words_score co_voice_clarity_score
      co_word_repetition_count co_speaking_pace_count co_filler_words_count].
    now rewrite R1, R2, R3, R4, R5, R6, R7, R8. }
  split; [eauto |].
  intros r H. unfold coerce_and_validate in H. rewrite E in H. simpl in H.
  destruct (validate_keeps_numbers _ _ H) as (N1 & N2 & N3 & N4 & N5 & N6 & N7 & N8).
  unfold report_in_range. rewrite N1, N2, N3, N4, N5, N6, N7, N8. exact R.
Qed.

Lemma in_range_values_stay_in_range_witness :
  exists c,
    coerce (PDict [("score", PInt 7); ("voice_clarity_score", PFloat (Float.round 17 (-1)));
                   ("filler_words_count", PInt 4); ("speaking_pace_score", PNone)])
    = Ok c
    /\ coerced_in_range c = true.
Proof.
  refine (proj1 (in_range_values_stay_in_range
            [("score", PInt 7); ("voice_clarity_score", PFloat (Float.round 17 (-1)));
             ("filler_words_count", PInt 4); ("speaking_pace_score", PNone)] _ _)).
  - intros k Hk. simpl in Hk.
    repeat (destruct Hk as [<- | Hk]; [vm_compute; intuition discriminate |]).
    contradiction.
  - intros k Hk. simpl in Hk.
    repeat (destruct Hk as [<- | Hk]; [vm_compute; intuition discriminate |]).
    contradiction.
Defined.

(** An object that has none of the eleven keys (or has them with [null])
    gives the report of the defaults, whose [overall_feedback] is empty:
    unlike the fallback report, it carries no sentence that tells the caller
    something went wrong. *)
Theorem object_without_the_keys_gives_blank_report :
  forall d : list (string * pyval),
    (forall k,
        In k (score_keys ++ count_keys
              ++ ["overall_feedback"; "repetitive_words_list"; "detailed_tips"])%list ->
        Json.dict_get d k = None \/ Json.dict_get d k = Some PNone) ->
    coerce_and_validate (PDict d) = Ok blank_report
    /\ blank_report <> default_report.
Proof.
  intros d H. split; [| discriminate].
  assert (Hs : forall k, In k score_keys -> policy_score d k = Ok Float.zero).
  { intros k Hk. unfold policy_score.
    destruct (H k) as [-> | ->]; [apply in_or_app; auto | reflexivity | reflexivity]. }
  assert (Hc : forall k, In k count_keys -> policy_count d k = Ok 0).
  { intros k Hk. unfold policy_count.
    destruct (H k) as [-> | ->];
      [apply in_or_app; right; apply in_or_app; auto | reflexivity | reflexivity]. }
  assert (Ht : policy_text d "overall_feedback" = PStr "").
  { unfold policy_text.
    destruct (H "overall_feedback") as [-> | ->]; [simpl; tauto | reflexivity | reflexivity]. }
  assert (Hl : forall k, k = "repetitive_words_list" \/ k = "detailed_tips" ->
                         policy_list d k = PList []).
  { intros k Hk. unfold policy_list.
    destruct (H k) as [-> | ->]; [| reflexivity | reflexivity].
    destruct Hk as [-> | ->]; simpl; tauto. }
  unfold coerce_and_validate.
  rewrite (coerce_dict_ok d Float.zero Float.zero Float.zero Float.zero Float.zero 0 0 0)
    by (apply Hs || apply Hc; simpl; tauto).
  rewrite Ht, !Hl by tauto. reflexivity.
Qed.

Lemma object_without_the_keys_gives_blank_report_witness :
  coerce_and_validate (PDict [("note", PStr "nothing to say"); ("score", PNone)])
  = Ok blank_report.
Proof.
  refine (proj1 (object_without_the_keys_gives_blank_report
                   [("note", PStr "nothing to say"); ("score", PNone)] _)).
  intros k Hk. simpl in Hk.
  repeat (destruct Hk as [<- | Hk]; [vm_compute; auto |]).
  contradiction.
Defined.

(** ** The clean-up of the provider's text, further *)

Lemma startswith_split (p s : string) :
  Str.startswith p s = true -> s = p ++ Str.drop (String.length p) s.
Proof.
  revert s. induction p as [| a p IH]; intros s H; [reflexivity |].
  destruct s as [| b s]; [discriminate |]. simpl in H |- *.
  apply andb_true_iff in H. destruct H as [Hab H].
  apply Ascii.eqb_eq in Hab. subst b. f_equal. now apply IH.
Qed.

Lemma drop_length (n : nat) (s : string) :
  (String.length (Str.drop n s) <= String.length s)%nat.
Proof.
  revert s. induction n as [| n IH]; intros s; simpl; [lia |].
  destruct s as [| c s]; simpl; [lia |]. specialize (IH s). lia.
Qed.

Lemma replace_step (old new : string) (c : ascii) (s : string) :
  Str.startswith old (String c s) = false ->
  Str.replace old new (String c s) = String c (Str.replace old new s).
Proof. intros H. unfold Str.replace. cbn [Str.replace_from]. now rewrite H. Qed.

Lemma replace_match (c : ascii) (p new s : string) :
  Str.startswith (String c p) s = true ->
  Str.replace (String c p) new s
  = new ++ Str.replace (String c p) new (Str.drop (String.length (String c p)) s).
Proof.
  intros H. rewrite (startswith_split _ _ H) at 1. apply replace_prefix.
Qed.

Lemma startswith_other (a c : ascii) (p s : string) :
  a <> c -> Str.startswith (String a p) (String c s) = false.
Proof. intros H. cbn [Str.startswith]. now rewrite (proj2 (Ascii.eqb_neq a c) H). Qed.

Lemma startswith_same (a : ascii) (p s : string) :
  Str.startswith (String a p) (String a s) = Str.startswith p s.
Proof. cbn [Str.startswith]. now rewrite Ascii.eqb_refl. Qed.

(** What is left of a text after its fences are taken out does not start
    with a fence. *)
Lemma fence_removed_at_head_bounded (n : nat) :
  forall s, (String.length s <= n)%nat ->
            Str.startswith "```" (Str.replace "```" "" s) = false.
Proof.
  induction n as [| n IH]; intros s Hn.
  - destruct s; [reflexivity | simpl in Hn; lia].
  - destruct (Str.startswith "```" s) eqn:E.
    + rewrite replace_match by assumption.
      change ("" ++ ?x) with x. apply IH.
      pose proof (f_equal String.length (startswith_split _ _ E)) as L.
      rewrite length_append in L. cbn [String.length] in L |- *. lia.
    + destruct s as [| a s]; [reflexivity |].
      rewrite replace_step by assumption.
      destruct (Ascii.ascii_dec "`" a) as [<- | Ha];
        [| now apply startswith_other].
      rewrite startswith_same in E |- *.
      destruct s as [| b s]; [reflexivity |].
      destruct (Ascii.ascii_dec "`" b) as [<- | Hb].
      2: { rewrite replace_step by now apply startswith_other.
           now apply startswith_other. }
      rewrite startswith_same in E.
      destruct s as [| c s].
      { reflexivity. }
      destruct (Ascii.ascii_dec "`" c) as [<- | Hc].
      { rewrite startswith_same in E. discriminate E. }
      rewrite replace_step by (rewrite startswith_same; now apply startswith_other).
      rewrite startswith_same.
      rewrite replace_step by now apply startswith_other.
      now apply startswith_other.
Qed.

Lemma fence_removed_bounded (n : nat) :
  forall s, (String.length s <= n)%nat ->
            Str.contains "```" (Str.replace "```" "" s) = false.
Proof.
  induction n as [| n IH]; intros s Hn.
  - destruct s; [reflexivity | simpl in Hn; lia].
  - destruct (Str.startswith "```" s) eqn:E.
    + rewrite replace_match by assumption.
      change ("" ++ ?x) with x. apply IH.
      pose proof (f_equal String.length (startswith_split _ _ E)) as L.
      rewrite length_append in L. cbn [String.length] in L |- *. lia.
    + destruct s as [| a s]; [reflexivity |].
      pose proof (fence_removed_at_head_bounded (S n) (String a s) Hn) as Hh.
      rewrite replace_step in * by assumption.
      cbn [Str.contains]. rewrite Hh. simpl in Hn. apply IH. lia.
Qed.

(** The clean-up leaves no code fence: whatever the provider answers, the
    text handed to [json.loads] holds no run of three backquotes (and so no
    "```json" either). *)
Theorem json_response_has_no_fence :
  forall text : string,
    Str.contains "```" (json_response text) = false
    /\ Str.contains "```json" (json_response text) = false.
Proof.
  intros text.
  assert (H : Str.contains "```" (json_response text) = false).
  { unfold json_response.
    apply fence_removed_bounded
      with (n := String.length (Str.replace "```json" "" (Str.strip text))).
    lia. }
  split; [exact H |]. exact (contains_prefix "```" "json" _ H).
Qed.

(** ** The command-line helpers *)

Lemma ask_for_path_find (path_exists : string -> bool) (inputs : list string)
  (audio_path : string) :
  ask_for_path path_exists inputs audio_path
  = List.find path_exists (audio_path :: inputs).
Proof.
  revert audio_path. induction inputs as [| a inputs IH]; intros p; simpl.
  - now destruct (path_exists p).
  - destruct (path_exists p); [reflexivity |]. rewrite IH. reflexivity.
Qed.

(** [get_audio_from_user] returns the first path that exists among
    "speech.wav" and the lines the user types, in that order: the path it
    returns exists, every path tried before it does not, and it fails (the
    input ends) only when none of them exists. *)
Theorem audio_path_is_the_first_that_exists :
  forall (path_exists : string -> bool) (inputs : list string),
    let tried := ("speech.wav" :: inputs)%list in
    get_audio_from_user path_exists inputs = List.find path_exists tried
    /\ (forall p,
          get_audio_from_user path_exists inputs = Some p ->
          path_exists p = true
          /\ exists before after,
               tried = (before ++ p :: after)%list
               /\ forall q, In q before -> path_exists q = false)
    /\ (get_audio_from_user path_exists inputs = None <->
        forall q, In q tried -> path_exists q = false).
Proof.
  intros ex inputs tried. subst tried.
  unfold get_audio_from_user. rewrite ask_for_path_find.
  split; [reflexivity |]. split.
  - generalize ("speech.wav" :: inputs)%list. intros l p.
    induction l as [| a l IH]; simpl; [discriminate |].
    destruct (ex a) eqn:E.
    + intros H. injection H as <-. split; [exact E |].
      exists [], l. split; [reflexivity | intros q []].
    + intros H. destruct (IH H) as (Hp & before & after & -> & Hb).
      split; [exact Hp |].
      exists (a :: before)%list, after. split; [reflexivity |].
      intros q [<- | Hq]; auto.
  - split.
    + intros H q Hq. exact (List.find_none _ _ H q Hq).
    + generalize ("speech.wav" :: inputs)%list. intros l H.
      induction l as [| a l IH]; simpl; [reflexivity |].
      rewrite (H a) by (simpl; auto). apply IH. intros q Hq. apply H. simpl. auto.
Qed.

Lemma audio_path_is_the_first_that_exists_witness :
  get_audio_from_user (String.eqb "talk.mp3") ["nothing.wav"; "talk.mp3"; "other.wav"]
  = Some "talk.mp3"
  /\ String.eqb "talk.mp3" "talk.mp3" = true.
Proof.
  split; [reflexivity |].
  exact (proj1 (proj1 (proj2 (audio_path_is_the_first_that_exists
                  (String.eqb "talk.mp3") ["nothing.wav"; "talk.mp3"; "other.wav"]))
               "talk.mp3" eq_refl)).
Defined.
